(** * Order service of the shopping backend: checkout and order status

    A shallow embedding of the order service's two mutating handlers,
    [POST /orders] (place an order from a cart) and
    [PUT /orders/:id/status], together with the tables they read and write
    and the JavaScript number arithmetic the checkout total goes through.

    Conventions.
    - [DECIMAL(10,2)] columns and the SQL expression
      [ci.quantity * ci.price_at_addition] are exact decimals; they are held
      as an integer number of cents.  The driver hands them to JavaScript as
      decimal strings ([decimal_to_string]).
    - The nullable columns [products.stock_quantity] and
      [cart_items.price_at_addition] are taken to hold a value, as every
      writer of these tables stores one.
    - A row holds the values bound to it: the width of a column is not
      enforced, and [orders.total_amount] holds the Number the handler
      binds, before the server rounds it to the column's two decimals.
    - The timestamp columns ([created_at], [updated_at]), which the server
      fills from its clock, are left out.
    - Request fields range over the JSON scalars, the numbers among them
      being integers.
    - One request runs at a time; the transactions of other connections are
      not modelled. *)

From Stdlib Require Import ZArith Lia SpecFloat.
From stdpp Require Import gmap strings list fin_maps pretty.

Local Open Scope Z_scope.

(** ** JavaScript numbers (IEEE 754 binary64) *)

Module Float64.

(** Every finite double is an integer multiple of [2^-1074], the smallest
    subnormal.  [Finite k] is the double of value [k / 2^1074].  The only
    numbers the handlers build are the literal [0], [parseFloat] of a
    decimal string and sums of these, none of which is a negative zero. *)
Inductive number :=
| NaN
| Infinity (negative : bool)
| Finite (k : Z).

Definition unit_exp : Z := 1074.
Definition scale : Z := 2 ^ unit_exp.

(** Spacing of the doubles in the binade of a magnitude whose integer part,
    counted in units of [2^-1074], is [t]: 53 significant bits, and one
    unit in the subnormal range. *)
Definition ulp_of (t : Z) : Z := 2 ^ Z.max (Z.log2 t - 52) 0.

(** Nearest integer to [n / d], ties to the even one ([0 <= n], [0 < d]). *)
Definition round_half_even (n d : Z) : Z :=
  let q := n / d in
  let r := n mod d in
  if 2 * r <? d then q
  else if d <? 2 * r then q + 1
  else if Z.even q then q else q + 1.

(** Nearest double, in units of [2^-1074], to the magnitude [n / d] units. *)
Definition round_magnitude (n d : Z) : Z :=
  let u := ulp_of (n / d) in
  round_half_even n (d * u) * u.

(** First magnitude that is no longer a double: [2^1024]. *)
Definition overflow_threshold : Z := 2 ^ (1024 + unit_exp).

(** Round to nearest, ties to even, of the rational [n / d] units. *)
Definition round_to_double (n d : Z) : number :=
  let k := round_magnitude (Z.abs n) d in
  if overflow_threshold <=? k then Infinity (n <? 0)
  else Finite (Z.sgn n * k).

(** [x + y] on Numbers. *)
Definition js_add (x y : number) : number :=
  match x, y with
  | NaN, _ | _, NaN => NaN
  | Infinity a, Infinity b => if Bool.eqb a b then Infinity a else NaN
  | Infinity a, Finite _ => Infinity a
  | Finite _, Infinity b => Infinity b
  | Finite a, Finite b => round_to_double (a + b) 1
  end.

(** [parseFloat(s)] for [s] the decimal string of [cents / 100]. *)
Definition parseFloat (cents : Z) : number :=
  round_to_double (cents * scale) 100.

Definition is_finite (x : number) : bool :=
  match x with Finite _ => true | _ => false end.

(** The integer [n] for which [n / 100 - x] is as close to zero as
    possible, the larger one on a tie, for the magnitude [x = a / 2^1074]:
    step 9 of [Number.prototype.toFixed] with [fractionDigits = 2]. *)
Definition nearest_hundredths (a : Z) : Z :=
  (2 * 100 * a + scale) / (2 * scale).

(** The same double in the Standard Library's IEEE 754 format. *)
Definition to_spec_float (x : number) : spec_float :=
  match x with
  | NaN => S754_nan
  | Infinity s => S754_infinity s
  | Finite 0 => S754_zero false
  | Finite k =>
      let a := Z.abs k in
      let e := Z.max (Z.log2 a - 52) 0 in
      S754_finite (k <? 0) (Z.to_pos (a / 2 ^ e)) (e - unit_exp)
  end.

End Float64.

Export Float64.

(** ** JSON scalars and their JavaScript tests *)

Inductive jsval :=
| JUndefined
| JNull
| JBool (b : bool)
| JNum (n : Z)
| JStr (s : string).

(** [!v] is [negb (truthy v)]. *)
Definition truthy (v : jsval) : bool :=
  match v with
  | JUndefined | JNull => false
  | JBool b => b
  | JNum n => negb (n =? 0)
  | JStr s => negb (String.eqb s EmptyString)
  end.

(** [n === v] for a Number [n] read from an [INT] column. *)
Definition strict_eq_int (n : Z) (v : jsval) : bool :=
  match v with
  | JNum m => n =? m
  | _ => false
  end.

(** [validStatuses.includes(v)]: only a string can be found in a list of
    strings. *)
Definition includes (l : list string) (v : jsval) : bool :=
  match v with
  | JStr s => existsb (String.eqb s) l
  | _ => false
  end.

(** What the SQL server and the JavaScript runtime contribute and the
    service does not spell out: the integer a string compares equal to in
    [int_column = 'string'], if any, and the text of a finite double of at
    least [10^21], given in units of [2^-1074], which [toFixed] prints as
    [toString] does. *)
Class Runtime := {
  mysql_int_of_string : string → option Z;
  large_number_to_string : Z → string
}.

(** Two decimal digits. *)
Definition two_digits (n : Z) : string :=
  pretty (n / 10) +:+ pretty (n mod 10).

(** The text of the exact decimal [cents / 100] with two fraction digits:
    how a [DECIMAL(_,2)] value reaches JavaScript. *)
Definition decimal_to_string (cents : Z) : string :=
  (if cents <? 0 then "-" else EmptyString) +:+
  pretty (Z.abs cents / 100) +:+ "." +:+ two_digits (Z.abs cents mod 100).

(** [x.toFixed(2)]. *)
Definition toFixed2 `{Runtime} (x : number) : string :=
  match x with
  | NaN => "NaN"
  | Infinity negative => if negative then "-Infinity" else "Infinity"
  | Finite k =>
      (if k <? 0 then "-" else EmptyString) +:+
      (if 10 ^ 21 * scale <=? Z.abs k then large_number_to_string (Z.abs k)
       else decimal_to_string (nearest_hundredths (Z.abs k)))
  end.

(** ** Tables *)

(** [users] row, keyed by [id]. *)
Record user := {
  u_username : string;
  u_email : string;
  u_full_name : option string
}.

(** [products] row, keyed by [id]. *)
Record product := {
  p_name : string;
  p_description : option string;
  p_price : Z;
  p_stock_quantity : Z;
  p_category : option string;
  p_image_url : option string
}.

(** [carts] row, keyed by [id]. *)
Record cart := {
  c_user_id : Z;
  c_status : string
}.

(** [cart_items] row. *)
Record cart_item := {
  ci_id : Z;
  ci_cart_id : Z;
  ci_product_id : Z;
  ci_quantity : Z;
  ci_price_at_addition : Z
}.

(** [orders] row.  [o_total_amount] is the Number bound to the
    [total_amount] placeholder; the optional request fields are kept as
    they were bound. *)
Record order := {
  o_id : Z;
  o_user_id : Z;
  o_cart_id : Z;
  o_total_amount : number;
  o_status : string;
  o_shipping_address : jsval;
  o_payment_method : jsval
}.

(** [order_items] row. *)
Record order_item := {
  oi_id : Z;
  oi_order_id : Z;
  oi_product_id : Z;
  oi_product_name : string;
  oi_quantity : Z;
  oi_price : Z;
  oi_subtotal : Z
}.

(** The shared relational store.  Tables with a primary key that the
    service looks rows up by are maps from the key; the others are row
    lists in table order, with their [AUTO_INCREMENT] counters. *)
Record database := {
  users : gmap Z user;
  products : gmap Z product;
  carts : gmap Z cart;
  cart_items : list cart_item;
  orders : list order;
  orders_auto_increment : Z;
  order_items : list order_item;
  order_items_auto_increment : Z
}.

(** A row of the checkout's [cart_items JOIN products] query. *)
Record cart_line := {
  cl_product_id : Z;
  cl_quantity : Z;
  cl_price_at_addition : Z;
  cl_product_name : string;
  cl_stock_quantity : Z;
  cl_subtotal : Z
}.

(** Outcome of a statement: its value, or the error the driver throws. *)
Inductive result (A : Type) :=
| Ok (a : A)
| Throw (message : string).
Arguments Ok {A} a.
Arguments Throw {A} message.

(** ** Statements *)

Section Statements.
Context `{Runtime}.

(** The integer an [INT] column has to hold to be [=] to a bound value. *)
Definition sql_int_of_param (v : jsval) : option Z :=
  match v with
  | JNum n => Some n
  | JBool b => Some (if b then 1 else 0)
  | JStr s => mysql_int_of_string s
  | JNull | JUndefined => None
  end.

Definition sql_eq_int (column : Z) (v : jsval) : bool :=
  match sql_int_of_param v with
  | Some k => column =? k
  | None => false
  end.

(** [SELECT id FROM users WHERE id = ?] *)
Definition select_user (db : database) (user_id : jsval) : list Z :=
  match sql_int_of_param user_id with
  | Some k => match users db !! k with Some _ => [k] | None => [] end
  | None => []
  end.

(** [SELECT id, user_id, status FROM carts WHERE id = ? AND status = "active"];
    the statuses the services write, [active] and [ordered], are told
    apart as strings. *)
Definition select_active_cart (db : database) (cart_id : jsval) : list (Z * cart) :=
  match sql_int_of_param cart_id with
  | Some k =>
      match carts db !! k with
      | Some c => if String.eqb (c_status c) "active" then [(k, c)] else []
      | None => []
      end
  | None => []
  end.

(** One [cart_items] row joined with its product; the inner join drops a
    row whose product is gone. *)
Definition join_product (db : database) (ci : cart_item) : option cart_line :=
  p ← products db !! ci_product_id ci;
  Some {| cl_product_id := ci_product_id ci;
          cl_quantity := ci_quantity ci;
          cl_price_at_addition := ci_price_at_addition ci;
          cl_product_name := p_name p;
          cl_stock_quantity := p_stock_quantity p;
          cl_subtotal := ci_quantity ci * ci_price_at_addition ci |}.

(** [SELECT ci.product_id, ci.quantity, ci.price_at_addition,
    p.name as product_name, p.stock_quantity,
    (ci.quantity * ci.price_at_addition) as subtotal
    FROM cart_items ci JOIN products p ON ci.product_id = p.id
    WHERE ci.cart_id = ?] *)
Definition select_cart_items (db : database) (cart_id : jsval) : list cart_line :=
  omap (λ ci, if sql_eq_int (ci_cart_id ci) cart_id
              then join_product db ci else None)
       (cart_items db).

(** [INSERT INTO orders (user_id, cart_id, total_amount, status,
    shipping_address, payment_method) VALUES (?, ?, ?, ?, ?, ?)],
    giving [insertId].  The statement is refused when a [NOT NULL]
    reference is not an integer or does not point to a row, and when the
    total is a Number without a numeric literal. *)
Definition insert_order (db : database) (user_id cart_id : jsval)
    (total_amount : number) (status : string)
    (shipping_address payment_method : jsval) : result (Z * database) :=
  match sql_int_of_param user_id, sql_int_of_param cart_id with
  | Some u, Some c =>
      if negb (is_finite total_amount) then Throw "Unknown column"
      else if negb (bool_decide (is_Some (users db !! u))
                    && bool_decide (is_Some (carts db !! c)))
      then Throw "Cannot add or update a child row"
      else
        let id := orders_auto_increment db in
        Ok (id,
            {| users := users db; products := products db;
               carts := carts db; cart_items := cart_items db;
               orders := orders db ++
                 [{| o_id := id; o_user_id := u; o_cart_id := c;
                     o_total_amount := total_amount; o_status := status;
                     o_shipping_address := shipping_address;
                     o_payment_method := payment_method |}];
               orders_auto_increment := id + 1;
               order_items := order_items db;
               order_items_auto_increment := order_items_auto_increment db |})
  | _, _ => Throw "Column cannot be null"
  end.

(** [INSERT INTO order_items (order_id, product_id, product_name,
    quantity, price, subtotal) VALUES (?, ?, ?, ?, ?, ?)] *)
Definition insert_order_item (db : database) (order_id product_id : Z)
    (product_name : string) (quantity price subtotal : Z) : database :=
  {| users := users db; products := products db;
     carts := carts db; cart_items := cart_items db;
     orders := orders db;
     orders_auto_increment := orders_auto_increment db;
     order_items := order_items db ++
       [{| oi_id := order_items_auto_increment db;
           oi_order_id := order_id; oi_product_id := product_id;
           oi_product_name := product_name; oi_quantity := quantity;
           oi_price := price; oi_subtotal := subtotal |}];
     order_items_auto_increment := order_items_auto_increment db + 1 |}.

Definition decrement (amount : Z) (p : product) : product :=
  {| p_name := p_name p; p_description := p_description p;
     p_price := p_price p;
     p_stock_quantity := p_stock_quantity p - amount;
     p_category := p_category p; p_image_url := p_image_url p |}.

(** [UPDATE products SET stock_quantity = stock_quantity - ? WHERE id = ?] *)
Definition update_product_stock (db : database) (amount product_id : Z) : database :=
  {| users := users db;
     products := alter (decrement amount) product_id (products db);
     carts := carts db; cart_items := cart_items db;
     orders := orders db;
     orders_auto_increment := orders_auto_increment db;
     order_items := order_items db;
     order_items_auto_increment := order_items_auto_increment db |}.

Definition set_cart_status (status : string) (c : cart) : cart :=
  {| c_user_id := c_user_id c; c_status := status |}.

(** [UPDATE carts SET status = "ordered" WHERE id = ?] *)
Definition update_cart_status (db : database) (cart_id : jsval) : database :=
  match sql_int_of_param cart_id with
  | Some k =>
      {| users := users db; products := products db;
         carts := alter (set_cart_status "ordered") k (carts db);
         cart_items := cart_items db;
         orders := orders db;
         orders_auto_increment := orders_auto_increment db;
         order_items := order_items db;
         order_items_auto_increment := order_items_auto_increment db |}
  | None => db
  end.

Definition set_order_status (status : string) (o : order) : order :=
  {| o_id := o_id o; o_user_id := o_user_id o; o_cart_id := o_cart_id o;
     o_total_amount := o_total_amount o; o_status := status;
     o_shipping_address := o_shipping_address o;
     o_payment_method := o_payment_method o |}.

(** [UPDATE orders SET status = ? WHERE id = ?], giving [affectedRows]
    (the rows found) and the new table. *)
Definition update_order_status (db : database) (status : string) (id : jsval)
    : nat * database :=
  (length (filter (λ o, sql_eq_int (o_id o) id = true) (orders db)),
   {| users := users db; products := products db;
      carts := carts db; cart_items := cart_items db;
      orders := (λ o, if sql_eq_int (o_id o) id
                      then set_order_status status o else o) <$> orders db;
      orders_auto_increment := orders_auto_increment db;
      order_items := order_items db;
      order_items_auto_increment := order_items_auto_increment db |}).

End Statements.

(** ** Requests and responses *)

(** [req.body] of [POST /orders]; an absent field is [JUndefined]. *)
Record order_request := {
  user_id : jsval;
  cart_id : jsval;
  shipping_address : jsval;
  payment_method : jsval
}.

(** An element of [order.items] in the success response. *)
Record item_json := {
  ij_product_id : Z;
  ij_product_name : string;
  ij_quantity : Z;
  ij_price : string;
  ij_subtotal : string
}.

(** [order] in the success response. *)
Record order_json := {
  oj_id : Z;
  oj_user_id : jsval;
  oj_cart_id : jsval;
  oj_total_amount : string;
  oj_status : string;
  oj_items : list item_json
}.

(** The JSON documents the two handlers send. *)
Inductive json_body :=
| JsonError (error : string)
| JsonFailure (error details : string)
| JsonInsufficientStock (error product : string) (available requested : Z)
| JsonOrderPlaced (message : string) (order : order_json)
| JsonInvalidStatus (error : string) (valid_statuses : list string)
| JsonStatusUpdated (message : string) (status : string).

(** [res.status(code).json(body)] *)
Record response := {
  res_status : Z;
  res_json : json_body
}.

(** ** Handlers *)

Section Handlers.
Context `{Runtime}.

(** The transaction of a connection: statements act on [conn], the
    working state, and leave [persisted] alone until the commit. *)
Record transaction := {
  persisted : database;
  conn : database
}.

Definition beginTransaction (db : database) : transaction :=
  {| persisted := db; conn := db |}.

(** The store after [connection.rollback()]. *)
Definition rollback (t : transaction) : database := persisted t.

(** The store after [connection.commit()]. *)
Definition commit (t : transaction) : database := conn t.

Definition query (t : transaction) (db : database) : transaction :=
  {| persisted := persisted t; conn := db |}.

(** The stock verification loop: the item on which it returns, if any. *)
Fixpoint verify_stock (cartItems : list cart_line) : option cart_line :=
  match cartItems with
  | [] => None
  | item :: rest =>
      if cl_stock_quantity item <? cl_quantity item then Some item
      else verify_stock rest
  end.

(** [cartItems.reduce((sum, item) => sum + parseFloat(item.subtotal), 0)] *)
Definition totalAmount (cartItems : list cart_line) : number :=
  fold_left (λ sum item, js_add sum (parseFloat (cl_subtotal item)))
            cartItems (Finite 0).

(** Body of the loop that inserts the order items and updates the stock. *)
Definition place_item (orderId : Z) (db : database) (item : cart_line) : database :=
  update_product_stock
    (insert_order_item db orderId (cl_product_id item) (cl_product_name item)
       (cl_quantity item) (cl_price_at_addition item) (cl_subtotal item))
    (cl_quantity item) (cl_product_id item).

Definition item_to_json (item : cart_line) : item_json :=
  {| ij_product_id := cl_product_id item;
     ij_product_name := cl_product_name item;
     ij_quantity := cl_quantity item;
     ij_price := decimal_to_string (cl_price_at_addition item);
     ij_subtotal := decimal_to_string (cl_subtotal item) |}.

(** [app.post('/orders', ...)]: the response and the store afterwards. *)
Definition post_orders (body : order_request) (db : database)
    : response * database :=
  if negb (truthy (user_id body)) || negb (truthy (cart_id body)) then
    ({| res_status := 400;
        res_json := JsonError "user_id and cart_id are required" |}, db)
  else
    let t := beginTransaction db in
    let users := select_user (conn t) (user_id body) in
    if (length users =? 0)%nat then
      ({| res_status := 404; res_json := JsonError "User not found" |},
       rollback t)
    else
      match select_active_cart (conn t) (cart_id body) with
      | [] =>
          ({| res_status := 404;
              res_json := JsonError "Cart not found or not active" |},
           rollback t)
      | (_, cart0) :: _ =>
          if negb (strict_eq_int (c_user_id cart0) (user_id body)) then
            ({| res_status := 403;
                res_json := JsonError "Cart does not belong to this user" |},
             rollback t)
          else
            let cartItems := select_cart_items (conn t) (cart_id body) in
            if (length cartItems =? 0)%nat then
              ({| res_status := 400; res_json := JsonError "Cart is empty" |},
               rollback t)
            else
              match verify_stock cartItems with
              | Some item =>
                  ({| res_status := 400;
                      res_json :=
                        JsonInsufficientStock "Insufficient stock"
                          (cl_product_name item) (cl_stock_quantity item)
                          (cl_quantity item) |},
                   rollback t)
              | None =>
                  let total := totalAmount cartItems in
                  match insert_order (conn t) (user_id body) (cart_id body)
                          total "pending" (shipping_address body)
                          (payment_method body) with
                  | Throw message =>
                      ({| res_status := 500;
                          res_json :=
                            JsonFailure "Failed to place order" message |},
                       rollback t)
                  | Ok (orderId, db1) =>
                      let t1 := query t db1 in
                      let t2 :=
                        query t1 (fold_left (place_item orderId) cartItems
                                            (conn t1)) in
                      let t3 :=
                        query t2 (update_cart_status (conn t2) (cart_id body)) in
                      ({| res_status := 201;
                          res_json :=
                            JsonOrderPlaced "Order placed successfully"
                              {| oj_id := orderId;
                                 oj_user_id := user_id body;
                                 oj_cart_id := cart_id body;
                                 oj_total_amount := toFixed2 total;
                                 oj_status := "pending";
                                 oj_items := item_to_json <$> cartItems |} |},
                       commit t3)
                  end
              end
      end.

Definition validStatuses : list string :=
  ["pending"; "processing"; "shipped"; "delivered"; "cancelled"].

(** [app.put('/orders/:id/status', ...)]: [id] is the path segment and
    [status] the field of the body. *)
Definition put_order_status (id : string) (status : jsval) (db : database)
    : response * database :=
  if negb (includes validStatuses status) then
    ({| res_status := 400;
        res_json := JsonInvalidStatus "Invalid status" validStatuses |}, db)
  else
    match status with
    | JStr s =>
        let '(affectedRows, db') := update_order_status db s (JStr id) in
        if (affectedRows =? 0)%nat then
          ({| res_status := 404; res_json := JsonError "Order not found" |},
           db')
        else
          ({| res_status := 200;
              res_json :=
                JsonStatusUpdated "Order status updated successfully" s |},
           db')
    | _ =>
        (* not reached: [includes] holds of strings only *)
        ({| res_status := 500;
            res_json := JsonFailure "Failed to update order status" EmptyString |},
         db)
    end.

End Handlers.

(** ** A runtime and a store to run the handlers on *)

Fixpoint digits_value (s : string) (acc : Z) : option Z :=
  match s with
  | EmptyString => Some acc
  | String c rest =>
      let d := Z.of_nat (Ascii.nat_of_ascii c) - 48 in
      if (0 <=? d) && (d <=? 9) then digits_value rest (10 * acc + d) else None
  end.

(** The digits [s] and the decimal exponent [n] of a decimal
    [s * 10^(n - p)] of [p] digits that reads back as the double of [a]
    units, the nearest to it if there are two; [x] is the double's value,
    an integer of [n] digits. *)
Definition shortest_with (a x n p : Z) : option (Z * Z) :=
  let unit := 10 ^ (n - p) in
  let lo := x / unit in
  let reads s :=
    match round_to_double (s * unit * scale) 1 with
    | Finite b => b =? a
    | _ => false
    end in
  let pick s := if s =? 10 ^ p then (10 ^ (p - 1), n + 1) else (s, n) in
  match reads lo, reads (lo + 1) with
  | true, true =>
      Some (pick (if x - lo * unit <? (lo + 1) * unit - x then lo
                  else if (lo + 1) * unit - x <? x - lo * unit then lo + 1
                  else if Z.even lo then lo else lo + 1))
  | true, false => Some (pick lo)
  | false, true => Some (pick (lo + 1))
  | false, false => None
  end.

(** The shortest such decimal, trying [p], [p + 1], ... digits. *)
Fixpoint shortest_from (fuel : nat) (a x n p : Z) : Z * Z :=
  match fuel with
  | O => (x, n)
  | S fuel =>
      match shortest_with a x n p with
      | Some sn => sn
      | None => shortest_from fuel a x n (p + 1)
      end
  end.

(** [toString] of the double of [a] units when it is at least [10^21]:
    the shortest digits that read back as it, in exponential notation. *)
Definition exponential (a : Z) : string :=
  let x := a / scale in
  let '(s, n) := shortest_from 17 a x (Z.of_nat (String.length (pretty x))) 1 in
  match pretty s with
  | String d EmptyString => String d EmptyString
  | String d rest => String d ("." +:+ rest)
  | EmptyString => EmptyString
  end +:+ "e+" +:+ pretty (n - 1).

(** A runtime in which a nonempty string of digits compares as the number
    it spells and any other string matches no integer. *)
#[export] Instance digits_runtime : Runtime := {
  mysql_int_of_string s :=
    match s with
    | EmptyString => None
    | _ => digits_value s 0
    end;
  large_number_to_string := exponential
}.

Definition alice : user :=
  {| u_username := "alice"; u_email := "alice@example.com";
     u_full_name := Some "Alice" |}.

Definition bob : user :=
  {| u_username := "bob"; u_email := "bob@example.com"; u_full_name := None |}.

Definition stocked (name : string) (price stock : Z) : product :=
  {| p_name := name; p_description := None; p_price := price;
     p_stock_quantity := stock; p_category := None; p_image_url := None |}.

Definition line (id cart product quantity price : Z) : cart_item :=
  {| ci_id := id; ci_cart_id := cart; ci_product_id := product;
     ci_quantity := quantity; ci_price_at_addition := price |}.

(** Two users, three products, and four carts: cart 100 of user 1 holds
    two of product A at 9.99 and one of product B at 15.00; cart 101 of
    user 2 was checked out before; cart 102 of user 1 asks for more of
    products B and C than there is, after a line that is in stock; cart
    103 of user 2 is empty. *)
Definition shop : database :=
  {| users := {[ 1 := alice; 2 := bob ]};
     products := {[ 10 := stocked "productA" 999 5;
                    11 := stocked "productB" 1500 3;
                    12 := stocked "productC" 250 0 ]};
     carts := {[ 100 := {| c_user_id := 1; c_status := "active" |};
                 101 := {| c_user_id := 2; c_status := "ordered" |};
                 102 := {| c_user_id := 1; c_status := "active" |};
                 103 := {| c_user_id := 2; c_status := "active" |} ]};
     cart_items := [ line 1 100 10 2 999; line 2 100 11 1 1500;
                     line 3 101 10 1 999;
                     line 4 102 10 1 999; line 5 102 11 4 1500;
                     line 6 102 12 1 250 ];
     orders := [ {| o_id := 1; o_user_id := 2; o_cart_id := 101;
                    o_total_amount := parseFloat 999; o_status := "pending";
                    o_shipping_address := JStr "1 Main St";
                    o_payment_method := JUndefined |} ];
     orders_auto_increment := 2;
     order_items := [ {| oi_id := 1; oi_order_id := 1; oi_product_id := 10;
                         oi_product_name := "productA"; oi_quantity := 1;
                         oi_price := 999; oi_subtotal := 999 |} ];
     order_items_auto_increment := 2 |}.

Definition checkout (user cart : Z) : order_request :=
  {| user_id := JNum user; cart_id := JNum cart;
     shipping_address := JStr "1 Main St"; payment_method := JStr "card" |}.

(** ** Vocabulary of the properties *)

Section Vocabulary.
Context `{Runtime}.

(** The checkout went through. *)
Definition placed (r : response) : Prop := res_status r = 201.

(** A line that asks for more than the product's current stock. *)
Definition short (item : cart_line) : Prop :=
  cl_stock_quantity item < cl_quantity item.

Definition error_response (code : Z) (message : string) : response :=
  {| res_status := code; res_json := JsonError message |}.

Definition insufficient_stock (item : cart_line) : response :=
  {| res_status := 400;
     res_json := JsonInsufficientStock "Insufficient stock"
                   (cl_product_name item) (cl_stock_quantity item)
                   (cl_quantity item) |}.

(** Steps 1 to 4 of the validation sequence pass: both identifiers are
    present, the user exists, the cart exists, is active and is the
    user's. *)
Definition owner_validated (body : order_request) (db : database) : Prop :=
  truthy (user_id body) = true ∧ truthy (cart_id body) = true ∧
  select_user db (user_id body) ≠ [] ∧
  ∃ k c, select_active_cart db (cart_id body) = [(k, c)] ∧
         strict_eq_int (c_user_id c) (user_id body) = true.

(** The validation sequence of the checkout, step by step: the request
    fails at the first step whose test it does not pass, with that
    step's error. *)
Inductive validation_failure (body : order_request) (db : database)
    : response → Prop :=
| missing_input :
    truthy (user_id body) = false ∨ truthy (cart_id body) = false →
    validation_failure body db
      (error_response 400 "user_id and cart_id are required")
| user_not_found :
    truthy (user_id body) = true → truthy (cart_id body) = true →
    select_user db (user_id body) = [] →
    validation_failure body db (error_response 404 "User not found")
| cart_not_found_or_not_active :
    truthy (user_id body) = true → truthy (cart_id body) = true →
    select_user db (user_id body) ≠ [] →
    select_active_cart db (cart_id body) = [] →
    validation_failure body db
      (error_response 404 "Cart not found or not active")
| ownership_mismatch k c :
    truthy (user_id body) = true → truthy (cart_id body) = true →
    select_user db (user_id body) ≠ [] →
    select_active_cart db (cart_id body) = [(k, c)] →
    strict_eq_int (c_user_id c) (user_id body) = false →
    validation_failure body db
      (error_response 403 "Cart does not belong to this user")
| empty_cart :
    owner_validated body db →
    select_cart_items db (cart_id body) = [] →
    validation_failure body db (error_response 400 "Cart is empty")
| insufficient item :
    owner_validated body db →
    verify_stock (select_cart_items db (cart_id body)) = Some item →
    validation_failure body db (insufficient_stock item).

(** The unique key [unique_cart_product (cart_id, product_id)] of
    [cart_items]. *)
Definition unique_cart_product (db : database) : Prop :=
  NoDup ((λ ci, (ci_cart_id ci, ci_product_id ci)) <$> cart_items db).

(** No product is oversold. *)
Definition stock_nonneg (db : database) : Prop :=
  ∀ id p, products db !! id = Some p → 0 ≤ p_stock_quantity p.

(** The order row a checkout inserts. *)
Definition new_order (db : database) (body : order_request)
    (u c : Z) (items : list cart_line) : order :=
  {| o_id := orders_auto_increment db; o_user_id := u; o_cart_id := c;
     o_total_amount := totalAmount items; o_status := "pending";
     o_shipping_address := shipping_address body;
     o_payment_method := payment_method body |}.

(** The order line a checkout inserts for the [i]-th line of the cart. *)
Definition new_order_item (db : database) (i : nat) (item : cart_line)
    : order_item :=
  {| oi_id := order_items_auto_increment db + Z.of_nat i;
     oi_order_id := orders_auto_increment db;
     oi_product_id := cl_product_id item;
     oi_product_name := cl_product_name item;
     oi_quantity := cl_quantity item;
     oi_price := cl_price_at_addition item;
     oi_subtotal := cl_quantity item * cl_price_at_addition item |}.

(** The exact sum of the subtotals, in cents. *)
Definition exact_total (items : list cart_line) : Z :=
  foldr (λ item acc, cl_quantity item * cl_price_at_addition item + acc)
        0 items.

(** The catalogue fields of a product: all but the stock. *)
Definition catalogue (p : product)
    : string * option string * Z * option string * option string :=
  (p_name p, p_description p, p_price p, p_category p, p_image_url p).

(** An order that [WHERE id = ?] finds for the path segment [id]. *)
Definition order_found (id : string) (o : order) : Prop :=
  sql_eq_int (o_id o) (JStr id) = true.

(** The response of a checkout that went through. *)
Definition placed_response (body : order_request) (orderId : Z)
    (items : list cart_line) : response :=
  {| res_status := 201;
     res_json :=
       JsonOrderPlaced "Order placed successfully"
         {| oj_id := orderId; oj_user_id := user_id body;
            oj_cart_id := cart_id body;
            oj_total_amount := toFixed2 (totalAmount items);
            oj_status := "pending";
            oj_items := item_to_json <$> items |} |}.

(** The stock updates of the insertion loop, on the products table. *)
Definition decrement_all (items : list cart_line) (ps : gmap Z product)
    : gmap Z product :=
  fold_left (λ ps item,
               alter (decrement (cl_quantity item)) (cl_product_id item) ps)
            items ps.

(** The quantity the lines of a cart ask of product [id]. *)
Definition ordered_quantity (id : Z) (items : list cart_line) : Z :=
  foldr (λ item acc,
           (if decide (cl_product_id item = id) then cl_quantity item else 0)
           + acc) 0 items.

(** The values that [!v] takes for missing. *)
Definition falsy (v : jsval) : Prop :=
  v = JUndefined ∨ v = JNull ∨ v = JBool false ∨ v = JNum 0 ∨
  v = JStr EmptyString.

(** Some test of the validation sequence does not pass, whichever it is. *)
Definition fails_validation (body : order_request) (db : database) : Prop :=
  truthy (user_id body) = false ∨ truthy (cart_id body) = false ∨
  select_user db (user_id body) = [] ∨
  select_active_cart db (cart_id body) = [] ∨
  (∃ k c, select_active_cart db (cart_id body) = [(k, c)] ∧
          strict_eq_int (c_user_id c) (user_id body) = false) ∨
  select_cart_items db (cart_id body) = [] ∨
  Exists short (select_cart_items db (cart_id body)).

End Vocabulary.

(** ** Checking the number model against the Standard Library's floats *)

(** The character of a decimal digit. *)
Definition digit (d : Z) : Ascii.ascii := Ascii.ascii_of_nat (Z.to_nat (48 + d)).

#[export] Instance spec_float_eq_dec : EqDecision spec_float.
Proof. solve_decision. Defined.

Definition int_to_spec_float (n : Z) : spec_float :=
  binary_normalize 53 1024 n 0 false.

(** [parseFloat] of [c / 100] is the binary64 quotient of [c] by [100]. *)
Definition parseFloat_agrees (c : Z) : bool :=
  bool_decide
    (to_spec_float (parseFloat c) =
     SFdiv 53 1024 (int_to_spec_float c) (int_to_spec_float 100)).

(** [+] is the binary64 sum. *)
Definition js_add_agrees (a b : Z) : bool :=
  bool_decide
    (to_spec_float (js_add (parseFloat a) (parseFloat b)) =
     SFadd 53 1024 (to_spec_float (parseFloat a))
                   (to_spec_float (parseFloat b))).

(** The double nearest to [n / 1000]. *)
Definition thousandth (n : Z) : number := round_to_double (n * scale) 1000.

(** A store whose only cart holds one item at 0.10 and one at 0.20. *)
Definition penny_shop : database :=
  {| users := {[ 1 := alice ]};
     products := {[ 1 := stocked "dime" 10 7; 2 := stocked "two dimes" 20 7 ]};
     carts := {[ 1 := {| c_user_id := 1; c_status := "active" |} ]};
     cart_items := [ line 1 1 1 1 10; line 2 1 2 1 20 ];
     orders := []; orders_auto_increment := 1;
     order_items := []; order_items_auto_increment := 1 |}.

(** ** The rest of the order service, and the cart and product services

    [GET /orders/:id] of the order service, the handlers of the cart
    service ([POST /cart/create], [POST /cart/items], [GET /cart/:cart_id],
    [PUT] and [DELETE /cart/items/:item_id]) and [DELETE /products/:id] of
    the product service, on the same tables and under the same
    conventions.  In addition:
    - the server is taken to run in its default strict mode: a bound
      value that an [INT] column does not accept makes the statement fail;
    - the foreign keys and the unique key that the services declare are
      enforced as declared: [cart_items] rows go with their cart and their
      product ([ON DELETE CASCADE]), while a product that an [order_items]
      row refers to cannot be deleted;
    - [affectedRows] of an [UPDATE] counts the rows found, as the driver
      asks the server to. *)

(** [res.status(code).json(body)] of the handlers below; [res.json(body)]
    alone has status 200. *)
Record reply (B : Type) := {
  reply_status : Z;
  reply_json : B
}.
Arguments reply_status {B} r.
Arguments reply_json {B} r.

(** [x < y] and [x <= y] on Numbers: false as soon as one is [NaN]. *)
Definition number_lt (x y : number) : bool :=
  match x, y with
  | NaN, _ | _, NaN => false
  | Infinity a, Infinity b => a && negb b
  | Infinity a, Finite _ => a
  | Finite _, Infinity b => negb b
  | Finite a, Finite b => a <? b
  end.

Definition number_le (x y : number) : bool :=
  match x, y with
  | NaN, _ | _, NaN => false
  | _, _ => negb (number_lt y x)
  end.

(** What the runtimes contribute to the cart service beyond [Runtime]: the
    Number a string converts to in a JavaScript comparison, and the integer
    an [INT] column takes when a string is assigned to it, if the server
    accepts the string. *)
Class Coercions := {
  js_number_of_string : string → number;
  mysql_int_of_assigned : string → option Z
}.

(** [ToNumber(v)], the conversion both operands of [<] and [<=] go
    through. *)
Definition to_number `{Coercions} (v : jsval) : number :=
  match v with
  | JUndefined => NaN
  | JNull => Finite 0
  | JBool b => Finite (if b then scale else 0)
  | JNum n => Finite (n * scale)
  | JStr s => js_number_of_string s
  end.

(** The integer an [INT] column takes from a bound value in an [INSERT]
    or [UPDATE], if the server accepts the value. *)
Definition sql_int_of_assigned `{Coercions} (v : jsval) : option Z :=
  match v with
  | JNum n => Some n
  | JBool b => Some (if b then 1 else 0)
  | JStr s => mysql_int_of_assigned s
  | JNull | JUndefined => None
  end.

(** The store of the cart service: the tables and the [AUTO_INCREMENT]
    counters of [carts] and [cart_items]. *)
Record store := {
  tables : database;
  carts_auto_increment : Z;
  cart_items_auto_increment : Z
}.

Definition with_carts (cs : gmap Z cart) (db : database) : database :=
  {| users := users db; products := products db; carts := cs;
     cart_items := cart_items db; orders := orders db;
     orders_auto_increment := orders_auto_increment db;
     order_items := order_items db;
     order_items_auto_increment := order_items_auto_increment db |}.

Definition with_cart_items (cis : list cart_item) (db : database) : database :=
  {| users := users db; products := products db; carts := carts db;
     cart_items := cis; orders := orders db;
     orders_auto_increment := orders_auto_increment db;
     order_items := order_items db;
     order_items_auto_increment := order_items_auto_increment db |}.

Definition with_tables (db : database) (s : store) : store :=
  {| tables := db; carts_auto_increment := carts_auto_increment s;
     cart_items_auto_increment := cart_items_auto_increment s |}.

(** The [product] object of the answer to an added item. *)
Record added_product_json := {
  ap_id : Z;
  ap_name : string;
  ap_price : string;
  ap_quantity : jsval
}.

(** A row of the cart view's [cart_items JOIN products] query. *)
Record cart_view_item := {
  cv_id : Z;
  cv_quantity : Z;
  cv_price_at_addition : Z;
  cv_product_id : Z;
  cv_product_name : string;
  cv_description : option string;
  cv_stock_quantity : Z;
  cv_subtotal : Z
}.

(** The JSON documents the cart service sends. *)
Inductive cart_json :=
| CartError (error : string)
| CartFailure (error details : string)
| CartId (message : string) (cart_id : Z)
| CartInsufficientStock (error : string) (available : Z)
| CartItemAdded (message : string) (product : added_product_json)
| CartView (cart_id : Z) (cart : cart) (username : string)
    (items : list cart_view_item) (item_count : nat) (total_amount : string)
| CartMessage (message : string).

(** The JSON documents of [GET /orders/:id]: the order row with the
    user's name and email, its lines and their number. *)
Inductive order_view_json :=
| OrderViewError (error : string)
| OrderView (order : order) (username email : string)
    (items : list order_item) (item_count : nat).

(** The JSON documents of [DELETE /products/:id]. *)
Inductive product_json :=
| ProductError (error : string)
| ProductFailure (error details : string)
| ProductMessage (message : string).

(** [req.body] of [POST /cart/items]. *)
Record add_item_request := {
  ai_cart_id : jsval;
  ai_product_id : jsval;
  ai_quantity : jsval
}.

Section MoreStatements.
Context `{Runtime} `{Coercions}.

(** [SELECT o.*, u.username, u.email FROM orders o
    JOIN users u ON o.user_id = u.id WHERE o.id = ?] *)
Definition select_order (db : database) (id : jsval)
    : list (order * string * string) :=
  omap (λ o, if sql_eq_int (o_id o) id
             then u ← users db !! o_user_id o;
                  Some (o, u_username u, u_email u)
             else None)
       (orders db).

(** [SELECT * FROM order_items WHERE order_id = ?] *)
Definition select_order_items (db : database) (id : jsval) : list order_item :=
  filter (λ oi, sql_eq_int (oi_order_id oi) id = true) (order_items db).

(** [SELECT id FROM carts WHERE user_id = ? AND status = "active"]; the
    query does not say in which order the rows come. *)
Definition select_active_carts_of (db : database) (user_id : jsval) : list Z :=
  omap (λ kc, if sql_eq_int (c_user_id kc.2) user_id
                 && String.eqb (c_status kc.2) "active"
              then Some kc.1 else None)
       (map_to_list (carts db)).

(** [INSERT INTO carts (user_id, status) VALUES (?, "active")], giving
    [insertId]; refused when the bound value is not accepted as an integer
    or is no user. *)
Definition insert_cart (s : store) (user_id : jsval) : result (Z * store) :=
  match sql_int_of_assigned user_id with
  | Some u =>
      if bool_decide (is_Some (users (tables s) !! u)) then
        let id := carts_auto_increment s in
        Ok (id,
            {| tables :=
                 with_carts (<[id := {| c_user_id := u; c_status := "active" |}]>
                               (carts (tables s))) (tables s);
               carts_auto_increment := id + 1;
               cart_items_auto_increment := cart_items_auto_increment s |})
      else Throw "Cannot add or update a child row"
  | None => Throw "Incorrect integer value"
  end.

(** [SELECT id, status FROM carts WHERE id = ?] *)
Definition select_cart (db : database) (cart_id : jsval) : list (Z * cart) :=
  match sql_int_of_param cart_id with
  | Some k => match carts db !! k with Some c => [(k, c)] | None => [] end
  | None => []
  end.

(** [SELECT id, name, price, stock_quantity FROM products WHERE id = ?] *)
Definition select_product (db : database) (product_id : jsval)
    : list (Z * product) :=
  match sql_int_of_param product_id with
  | Some k => match products db !! k with Some p => [(k, p)] | None => [] end
  | None => []
  end.

Definition same_line (cart product : Z) (ci : cart_item) : bool :=
  (ci_cart_id ci =? cart) && (ci_product_id ci =? product).

Definition add_to_line (quantity price : Z) (ci : cart_item) : cart_item :=
  {| ci_id := ci_id ci; ci_cart_id := ci_cart_id ci;
     ci_product_id := ci_product_id ci;
     ci_quantity := ci_quantity ci + quantity;
     ci_price_at_addition := price |}.

(** [INSERT INTO cart_items (cart_id, product_id, quantity,
    price_at_addition) VALUES (?, ?, ?, ?)
    ON DUPLICATE KEY UPDATE quantity = quantity + VALUES(quantity),
    price_at_addition = VALUES(price_at_addition)]: the row of the unique
    key [(cart_id, product_id)] is updated if there is one, and a row is
    added otherwise.  The statement is refused when a bound value is not
    accepted as an integer, and when the row to add refers to no cart or
    to no product. *)
Definition upsert_cart_item (s : store) (cart_id product_id quantity : jsval)
    (price : Z) : result store :=
  match sql_int_of_assigned cart_id, sql_int_of_assigned product_id,
        sql_int_of_assigned quantity with
  | Some c, Some p, Some q =>
      let rows := cart_items (tables s) in
      if existsb (same_line c p) rows then
        Ok (with_tables
              (with_cart_items
                 ((λ ci, if same_line c p ci then add_to_line q price ci
                         else ci) <$> rows)
                 (tables s)) s)
      else if negb (bool_decide (is_Some (carts (tables s) !! c))
                    && bool_decide (is_Some (products (tables s) !! p)))
      then Throw "Cannot add or update a child row"
      else
        Ok {| tables :=
                with_cart_items
                  (rows ++ [{| ci_id := cart_items_auto_increment s;
                               ci_cart_id := c; ci_product_id := p;
                               ci_quantity := q;
                               ci_price_at_addition := price |}])
                  (tables s);
              carts_auto_increment := carts_auto_increment s;
              cart_items_auto_increment := cart_items_auto_increment s + 1 |}
  | _, _, _ => Throw "Incorrect integer value"
  end.

(** [SELECT c.*, u.username FROM carts c JOIN users u ON c.user_id = u.id
    WHERE c.id = ?] *)
Definition select_cart_with_user (db : database) (cart_id : jsval)
    : list (Z * cart * string) :=
  match sql_int_of_param cart_id with
  | Some k =>
      match carts db !! k with
      | Some c =>
          match users db !! c_user_id c with
          | Some u => [(k, c, u_username u)]
          | None => []
          end
      | None => []
      end
  | None => []
  end.

Definition view_product (db : database) (ci : cart_item) : option cart_view_item :=
  p ← products db !! ci_product_id ci;
  Some {| cv_id := ci_id ci;
          cv_quantity := ci_quantity ci;
          cv_price_at_addition := ci_price_at_addition ci;
          cv_product_id := ci_product_id ci;
          cv_product_name := p_name p;
          cv_description := p_description p;
          cv_stock_quantity := p_stock_quantity p;
          cv_subtotal := ci_quantity ci * ci_price_at_addition ci |}.

(** [SELECT ci.id, ci.quantity, ci.price_at_addition, p.id as product_id,
    p.name as product_name, p.description, p.stock_quantity,
    (ci.quantity * ci.price_at_addition) as subtotal
    FROM cart_items ci JOIN products p ON ci.product_id = p.id
    WHERE ci.cart_id = ?] *)
Definition select_cart_view_items (db : database) (cart_id : jsval)
    : list cart_view_item :=
  omap (λ ci, if sql_eq_int (ci_cart_id ci) cart_id
              then view_product db ci else None)
       (cart_items db).

Definition set_quantity (quantity : Z) (ci : cart_item) : cart_item :=
  {| ci_id := ci_id ci; ci_cart_id := ci_cart_id ci;
     ci_product_id := ci_product_id ci; ci_quantity := quantity;
     ci_price_at_addition := ci_price_at_addition ci |}.

(** [UPDATE cart_items SET quantity = ? WHERE id = ?], giving
    [affectedRows] (the rows found) and the new tables.  The value is
    assigned to the rows found: when there are some and it is not accepted
    as an integer, the statement is refused. *)
Definition update_cart_item (db : database) (quantity id : jsval)
    : result (nat * database) :=
  let found := filter (λ ci, sql_eq_int (ci_id ci) id = true) (cart_items db) in
  match found, sql_int_of_assigned quantity with
  | [], _ => Ok (0%nat, db)
  | _ :: _, Some q =>
      Ok (length found,
          with_cart_items
            ((λ ci, if sql_eq_int (ci_id ci) id then set_quantity q ci
                    else ci) <$> cart_items db) db)
  | _ :: _, None => Throw "Incorrect integer value"
  end.

(** [DELETE FROM cart_items WHERE id = ?], giving [affectedRows] and the
    new tables. *)
Definition delete_cart_item (db : database) (id : jsval) : nat * database :=
  (length (filter (λ ci, sql_eq_int (ci_id ci) id = true) (cart_items db)),
   with_cart_items
     (filter (λ ci, sql_eq_int (ci_id ci) id ≠ true) (cart_items db)) db).

(** [DELETE FROM products WHERE id = ?], giving [affectedRows].  The
    foreign key of [order_items] refuses the statement when an order line
    refers to the product; the one of [cart_items], declared
    [ON DELETE CASCADE], deletes the cart lines that do. *)
Definition delete_product (db : database) (id : jsval) : result (nat * database) :=
  match sql_int_of_param id with
  | Some k =>
      match products db !! k with
      | Some _ =>
          if existsb (λ oi, oi_product_id oi =? k) (order_items db)
          then Throw "Cannot delete or update a parent row"
          else
            Ok (1%nat,
                {| users := users db; products := delete k (products db);
                   carts := carts db;
                   cart_items :=
                     filter (λ ci, ci_product_id ci ≠ k) (cart_items db);
                   orders := orders db;
                   orders_auto_increment := orders_auto_increment db;
                   order_items := order_items db;
                   order_items_auto_increment :=
                     order_items_auto_increment db |})
      | None => Ok (0%nat, db)
      end
  | None => Ok (0%nat, db)
  end.

End MoreStatements.

Section MoreHandlers.
Context `{Runtime} `{Coercions}.

Definition status_only {B} (code : Z) (body : B) : reply B :=
  {| reply_status := code; reply_json := body |}.

(** [app.get('/orders/:id', ...)]; it reads only. *)
Definition get_order (id : string) (db : database) : reply order_view_json :=
  match select_order db (JStr id) with
  | [] => status_only 404 (OrderViewError "Order not found")
  | (order0, username, email) :: _ =>
      let items := select_order_items db (JStr id) in
      status_only 200 (OrderView order0 username email items (length items))
  end.

(** [app.post('/cart/create', ...)] *)
Definition cart_create (user_id : jsval) (s : store) : reply cart_json * store :=
  if negb (truthy user_id) then
    (status_only 400 (CartError "user_id is required"), s)
  else if (length (select_user (tables s) user_id) =? 0)%nat then
    (status_only 404 (CartError "User not found"), s)
  else
    match select_active_carts_of (tables s) user_id with
    | id :: _ =>
        (status_only 200 (CartId "Active cart already exists" id), s)
    | [] =>
        match insert_cart s user_id with
        | Ok (insertId, s') =>
            (status_only 201 (CartId "Cart created successfully" insertId), s')
        | Throw message =>
            (status_only 500 (CartFailure "Failed to create cart" message), s)
        end
    end.

(** [app.post('/cart/items', ...)] *)
Definition cart_add_item (body : add_item_request) (s : store)
    : reply cart_json * store :=
  let cart_id := ai_cart_id body in
  let product_id := ai_product_id body in
  let quantity := ai_quantity body in
  if negb (truthy cart_id) || negb (truthy product_id)
     || negb (truthy quantity) then
    (status_only 400
       (CartError "cart_id, product_id, and quantity are required"), s)
  else if number_le (to_number quantity) (Finite 0) then
    (status_only 400 (CartError "Quantity must be positive"), s)
  else
    match select_cart (tables s) cart_id with
    | [] => (status_only 404 (CartError "Cart not found"), s)
    | (_, cart0) :: _ =>
        if negb (String.eqb (c_status cart0) "active") then
          (status_only 400 (CartError "Cart is not active"), s)
        else
          match select_product (tables s) product_id with
          | [] => (status_only 404 (CartError "Product not found"), s)
          | (id, product) :: _ =>
              if number_lt (Finite (p_stock_quantity product * scale))
                           (to_number quantity) then
                (status_only 400
                   (CartInsufficientStock "Insufficient stock"
                      (p_stock_quantity product)), s)
              else
                match upsert_cart_item s cart_id product_id quantity
                        (p_price product) with
                | Throw message =>
                    (status_only 500
                       (CartFailure "Failed to add item to cart" message), s)
                | Ok s' =>
                    (status_only 201
                       (CartItemAdded "Item added to cart successfully"
                          {| ap_id := id; ap_name := p_name product;
                             ap_price := decimal_to_string (p_price product);
                             ap_quantity := quantity |}), s')
                end
          end
    end.

(** [items.reduce((sum, item) => sum + parseFloat(item.subtotal), 0)] of
    the cart view. *)
Definition view_total (items : list cart_view_item) : number :=
  fold_left (λ sum item, js_add sum (parseFloat (cv_subtotal item)))
            items (Finite 0).

(** [app.get('/cart/:cart_id', ...)]; it reads only. *)
Definition cart_view (cart_id : string) (db : database) : reply cart_json :=
  match select_cart_with_user db (JStr cart_id) with
  | [] => status_only 404 (CartError "Cart not found")
  | (id, cart0, username) :: _ =>
      let items := select_cart_view_items db (JStr cart_id) in
      let total := view_total items in
      status_only 200
        (CartView id cart0 username items (length items) (toFixed2 total))
  end.

(** [app.put('/cart/items/:item_id', ...)] *)
Definition cart_update_item (item_id : string) (quantity : jsval) (s : store)
    : reply cart_json * store :=
  if negb (truthy quantity) || number_le (to_number quantity) (Finite 0) then
    (status_only 400 (CartError "Valid quantity is required"), s)
  else
    match update_cart_item (tables s) quantity (JStr item_id) with
    | Throw message =>
        (status_only 500 (CartFailure "Failed to update cart item" message), s)
    | Ok (affectedRows, db') =>
        if (affectedRows =? 0)%nat then
          (status_only 404 (CartError "Cart item not found"),
           with_tables db' s)
        else
          (status_only 200 (CartMessage "Cart item updated successfully"),
           with_tables db' s)
    end.

(** [app.delete('/cart/items/:item_id', ...)] *)
Definition cart_remove_item (item_id : string) (s : store)
    : reply cart_json * store :=
  let '(affectedRows, db') := delete_cart_item (tables s) (JStr item_id) in
  if (affectedRows =? 0)%nat then
    (status_only 404 (CartError "Cart item not found"), with_tables db' s)
  else
    (status_only 200 (CartMessage "Item removed from cart successfully"),
     with_tables db' s).

(** [app.delete('/products/:id', ...)] of the product service. *)
Definition product_delete (id : string) (db : database)
    : reply product_json * database :=
  match delete_product db (JStr id) with
  | Throw message =>
      (status_only 500 (ProductFailure "Failed to delete product" message), db)
  | Ok (affectedRows, db') =>
      if (affectedRows =? 0)%nat then
        (status_only 404 (ProductError "Product not found"), db')
      else
        (status_only 200 (ProductMessage "Product deleted successfully"), db')
  end.

(** The checkout on the store of the cart service. *)
Definition store_checkout (body : order_request) (s : store)
    : response * store :=
  let '(r, db') := post_orders body (tables s) in (r, with_tables db' s).

End MoreHandlers.

(** ** Invariants of the tables *)

Section Invariants.
Context `{Runtime} `{Coercions}.

(** A bound value that an [INT] column takes as the integer it compares
    equal to, as every JSON number is. *)
Definition stored_as_compared (v : jsval) : Prop :=
  sql_int_of_assigned v = sql_int_of_param v.

(** A user has at most one active cart. *)
Definition one_active_cart (db : database) : Prop :=
  ∀ k1 k2 c1 c2,
    carts db !! k1 = Some c1 → carts db !! k2 = Some c2 →
    c_status c1 = "active" → c_status c2 = "active" →
    c_user_id c1 = c_user_id c2 → k1 = k2.

(** The counters are ahead of the keys in use. *)
Definition counters_ahead (s : store) : Prop :=
  (∀ k c, carts (tables s) !! k = Some c → k < carts_auto_increment s) ∧
  Forall (λ ci, ci_id ci < cart_items_auto_increment s)
         (cart_items (tables s)).

(** The order counter is ahead of the order identifiers in use, in
    [orders] and in [order_items]. *)
Definition order_ids_ahead (db : database) : Prop :=
  Forall (λ o, o_id o < orders_auto_increment db) (orders db) ∧
  Forall (λ oi, oi_order_id oi < orders_auto_increment db) (order_items db).

(** Every line of every cart asks for at least one unit. *)
Definition quantities_positive (db : database) : Prop :=
  Forall (λ ci, 0 < ci_quantity ci) (cart_items db).

(** The foreign keys of the schema: a cart has its user, a cart line its
    cart and its product, an order its user and its cart, and an order
    line its order and its product. *)
Definition references_hold (db : database) : Prop :=
  (∀ k c, carts db !! k = Some c → is_Some (users db !! c_user_id c)) ∧
  Forall (λ ci, is_Some (carts db !! ci_cart_id ci) ∧
                is_Some (products db !! ci_product_id ci)) (cart_items db) ∧
  Forall (λ o, is_Some (users db !! o_user_id o) ∧
               is_Some (carts db !! o_cart_id o)) (orders db) ∧
  Forall (λ oi, Exists (λ o, o_id o = oi_order_id oi) (orders db) ∧
                is_Some (products db !! oi_product_id oi)) (order_items db).

(** The line of a cart for a product, if the cart has one. *)
Definition line_of (db : database) (cart product : Z) : option cart_item :=
  head (filter (λ ci, same_line cart product ci = true) (cart_items db)).

End Invariants.

(** Sample coercions: a nonempty string of digits is the number it
    spells, in a comparison and when assigned; any other string is [NaN]
    in a comparison and refused when assigned, but for the empty string,
    which is zero in a comparison. *)
#[export] Instance digits_coercions : Coercions := {
  js_number_of_string s :=
    match s with
    | EmptyString => Finite 0
    | _ => match digits_value s 0 with
           | Some n => Finite (n * scale)
           | None => NaN
           end
    end;
  mysql_int_of_assigned s :=
    match s with
    | EmptyString => None
    | _ => digits_value s 0
    end
}.

(** The sample tables with the counters of the cart service. *)
Definition market : store :=
  {| tables := shop; carts_auto_increment := 104;
     cart_items_auto_increment := 7 |}.

Definition add_item (cart product quantity : Z) : add_item_request :=
  {| ai_cart_id := JNum cart; ai_product_id := JNum product;
     ai_quantity := JNum quantity |}.

(** A store in which every user has at most one active cart: cart 100 of
    user 1 holds lines for the products A, B and D; cart 101 of user 2
    was checked out, and user 2 has no other cart. *)
Definition bazaar : store :=
  {| tables :=
       {| users := users shop;
          products := <[13 := stocked "productD" 100 4]> (products shop);
          carts := {[ 100 := {| c_user_id := 1; c_status := "active" |};
                      101 := {| c_user_id := 2; c_status := "ordered" |} ]};
          cart_items := [ line 1 100 10 2 999; line 2 100 11 1 1500;
                          line 3 101 10 1 999; line 4 100 13 3 100 ];
          orders := orders shop;
          orders_auto_increment := 2;
          order_items := order_items shop;
          order_items_auto_increment := 2 |};
     carts_auto_increment := 102;
     cart_items_auto_increment := 5 |}.

(** ** Checkout: what the handler does *)

Section Checkout.
Context `{Runtime}.

Lemma select_user_found db v :
  select_user db v ≠ [] ↔
  ∃ k, sql_int_of_param v = Some k ∧ is_Some (users db !! k).
Proof.
  unfold select_user. split.
  - destruct (sql_int_of_param v) as [k|]; [|done].
    destruct (users db !! k) eqn:E; [|done]. eauto.
  - intros (k & -> & [u ->]). done.
Qed.

Lemma select_active_cart_inv db v k c rest :
  select_active_cart db v = (k, c) :: rest →
  rest = [] ∧ sql_int_of_param v = Some k ∧ carts db !! k = Some c ∧
  c_status c = "active".
Proof.
  unfold select_active_cart.
  destruct (sql_int_of_param v) as [k'|]; [|done].
  destruct (carts db !! k') as [c'|] eqn:E; [|done].
  destruct (String.eqb (c_status c') "active") eqn:Es; [|done].
  intros [= <- <- <-]. apply String.eqb_eq in Es. done.
Qed.

Lemma select_active_cart_none db v :
  select_active_cart db v = [] ↔
  ∀ k c, sql_int_of_param v = Some k → carts db !! k = Some c →
         c_status c ≠ "active".
Proof.
  unfold select_active_cart. split.
  - destruct (sql_int_of_param v) as [k'|]; [|done].
    destruct (carts db !! k') as [c'|] eqn:E; [|intros _ k c [= <-] ?; congruence].
    destruct (String.eqb (c_status c') "active") eqn:Es; [done|].
    intros _ k c [= <-] ?. assert (c = c') as -> by congruence. by apply String.eqb_neq.
  - intros Hn. destruct (sql_int_of_param v) as [k'|]; [|done].
    destruct (carts db !! k') as [c'|] eqn:E; [|done].
    destruct (String.eqb (c_status c') "active") eqn:Es; [|done].
    apply String.eqb_eq in Es. by destruct (Hn k' c').
Qed.

Lemma strict_eq_int_true n v : strict_eq_int n v = true ↔ v = JNum n.
Proof.
  destruct v; simpl; try (split; [done|intros [=]]).
  rewrite Z.eqb_eq. split; [by intros ->|by intros [= ->]].
Qed.

Lemma length_eqb_0 {A} (l : list A) : (length l =? 0)%nat = true ↔ l = [].
Proof. destruct l; simpl; split; done. Qed.

Lemma post_orders_validation_failure body db r :
  validation_failure body db r → post_orders body db = (r, db).
Proof.
  unfold post_orders, owner_validated.
  destruct 1 as [[-> | ->] | Hu Hc Hn | Hu Hc Hf Hn | k c Hu Hc Hf Hs Ho
                 | (Hu & Hc & Hf & k & c & Hs & Ho) He
                 | item (Hu & Hc & Hf & k & c & Hs & Ho) Hv]; simpl.
  - done.
  - by rewrite orb_true_r.
  - by rewrite Hu, Hc, Hn.
  - rewrite Hu, Hc, Hn. simpl.
    destruct (select_user db (user_id body)); done.
  - rewrite Hu, Hc, Hs, Ho. simpl.
    destruct (select_user db (user_id body)); done.
  - rewrite Hu, Hc, Hs, Ho, He. simpl.
    destruct (select_user db (user_id body)); done.
  - rewrite Hu, Hc, Hs, Ho, Hv. simpl.
    destruct (select_user db (user_id body)); [done|].
    destruct (select_cart_items db (cart_id body)); done.
Qed.

Lemma post_orders_outcome body db r db' :
  post_orders body db = (r, db') →
  let items := select_cart_items db (cart_id body) in
  (validation_failure body db r ∧ db' = db) ∨
  (res_status r = 500 ∧ db' = db ∧ owner_validated body db ∧ items ≠ [] ∧
 verify_stock items = None) ∨
  (owner_validated body db ∧ items ≠ [] ∧ verify_stock items = None ∧
   ∃ orderId db1,
     insert_order db (user_id body) (cart_id body) (totalAmount items)
       "pending" (shipping_address body) (payment_method body)
       = Ok (orderId, db1) ∧
     db' = update_cart_status (fold_left (place_item orderId) items db1)
             (cart_id body) ∧
     r = placed_response body orderId items).
Proof.
  intros Hp items.
  unfold post_orders, beginTransaction, rollback, commit, query in Hp.
  cbn [conn persisted] in Hp. fold items in Hp.
  destruct (truthy (user_id body)) eqn:Hu; cbn [negb orb] in Hp;
    [|injection Hp as <- <-; left; split; [constructor; by left|done]].
  destruct (truthy (cart_id body)) eqn:Hc; cbn [negb orb] in Hp;
    [|injection Hp as <- <-; left; split; [constructor; by right|done]].
  destruct (length (select_user db (user_id body)) =? 0)%nat eqn:Hf;
    [apply length_eqb_0 in Hf; injection Hp as <- <-; left;
     split; [by constructor|done]|].
  assert (select_user db (user_id body) ≠ []) as Hf'
    by (intros E; rewrite E in Hf; done).
  clear Hf.
  destruct (select_active_cart db (cart_id body)) as [|[k c] rest] eqn:Hs;
    [injection Hp as <- <-; left; split; [by constructor|done]|].
  destruct (select_active_cart_inv _ _ _ _ _ Hs) as (-> & _).
  destruct (strict_eq_int (c_user_id c) (user_id body)) eqn:Ho;
    cbn [negb] in Hp;
    [|injection Hp as <- <-; left; split; [by econstructor|done]].
  assert (owner_validated body db) as Hov by (repeat split; eauto).
  destruct (length items =? 0)%nat eqn:Hi;
    [apply length_eqb_0 in Hi; injection Hp as <- <-; left;
     split; [by constructor|done]|].
  assert (items ≠ []) as Hi' by (intros E; rewrite E in Hi; done).
  destruct (verify_stock items) as [item|] eqn:Hv;
    [injection Hp as <- <-; left; split; [by constructor|done]|].
  destruct (insert_order _ _ _ _ _ _ _) as [[orderId db1]|msg] eqn:Hins;
    [|injection Hp as <- <-; right; left; done].
  injection Hp as <- <-. right; right.
  do 3 (split; [done|]). exists orderId, db1. done.
Qed.

Lemma validation_failure_status body db r :
  validation_failure body db r →
  res_status r = 400 ∨ res_status r = 403 ∨ res_status r = 404.
Proof. destruct 1; simpl; auto. Qed.

Lemma post_orders_not_placed body db r db' :
  post_orders body db = (r, db') → ¬ placed r → db' = db.
Proof.
  intros Hp Hn. apply post_orders_outcome in Hp.
  destruct Hp as [[_ ->] | [(_ & -> & _) | (_ & _ & _ & ? & ? & _ & _ & ->)]];
    [done..|]. by destruct Hn.
Qed.

Lemma insert_order_ok db uid cid total st addr pay id db1 :
  insert_order db uid cid total st addr pay = Ok (id, db1) →
  ∃ u c, sql_int_of_param uid = Some u ∧ sql_int_of_param cid = Some c ∧
    is_finite total = true ∧ id = orders_auto_increment db ∧
    users db1 = users db ∧ products db1 = products db ∧
    carts db1 = carts db ∧ cart_items db1 = cart_items db ∧
    orders db1 = orders db ++
      [{| o_id := id; o_user_id := u; o_cart_id := c;
          o_total_amount := total; o_status := st;
          o_shipping_address := addr; o_payment_method := pay |}] ∧
    orders_auto_increment db1 = id + 1 ∧
    order_items db1 = order_items db ∧
    order_items_auto_increment db1 = order_items_auto_increment db.
Proof.
  unfold insert_order.
  destruct (sql_int_of_param uid) as [u|]; [|done].
  destruct (sql_int_of_param cid) as [c|]; [|done].
  destruct (is_finite total); [|done]. cbn [negb].
  destruct (negb _); [done|]. intros [= <- <-]. exists u, c. done.
Qed.

Lemma decrement_decrement a b p :
  decrement a (decrement b p) = decrement (b + a) p.
Proof. unfold decrement. simpl. f_equal. lia. Qed.

Lemma decrement_0 p : decrement 0 p = p.
Proof. destruct p. unfold decrement. simpl. f_equal. lia. Qed.

Lemma lookup_decrement_all items ps id :
  decrement_all items ps !! id =
  decrement (ordered_quantity id items) <$> ps !! id.
Proof.
  revert ps. induction items as [|item items IH]; intros ps; simpl.
  - destruct (ps !! id) as [p|]; simpl; [|done]. by rewrite decrement_0.
  - unfold decrement_all in *. simpl. rewrite IH. rewrite lookup_alter.
    destruct (decide (cl_product_id item = id)) as [->|Hne].
    + destruct (ps !! id) as [p|]; simpl; [|done].
      by rewrite decrement_decrement.
    + by rewrite Z.add_0_l.
Qed.

Lemma place_items_tables orderId items db :
  let db' := fold_left (place_item orderId) items db in
  users db' = users db ∧ carts db' = carts db ∧
  cart_items db' = cart_items db ∧ orders db' = orders db ∧
  orders_auto_increment db' = orders_auto_increment db ∧
  products db' = decrement_all items (products db) ∧
  order_items db' = order_items db ++
    imap (λ i item,
            {| oi_id := order_items_auto_increment db + Z.of_nat i;
               oi_order_id := orderId;
               oi_product_id := cl_product_id item;
               oi_product_name := cl_product_name item;
               oi_quantity := cl_quantity item;
               oi_price := cl_price_at_addition item;
               oi_subtotal := cl_subtotal item |}) items ∧
  order_items_auto_increment db' =
    order_items_auto_increment db + Z.of_nat (length items).
Proof.
  revert db. induction items as [|item items IH]; intros db; cbn zeta.
  - simpl. rewrite app_nil_r, Z.add_0_r. done.
  - cbn [fold_left]. specialize (IH (place_item orderId db item)).
    cbn zeta in IH. destruct IH as (-> & -> & -> & -> & -> & -> & -> & ->).
    unfold place_item, update_product_stock, insert_order_item; simpl.
    repeat split; try done.
    + rewrite <- app_assoc. simpl. rewrite Z.add_0_r. do 2 f_equal.
      apply imap_ext. intros i x _. simpl. f_equal. lia.
    + lia.
Qed.

Lemma elem_of_select_cart_items db v item :
  item ∈ select_cart_items db v ↔
  ∃ ci p, ci ∈ cart_items db ∧ sql_eq_int (ci_cart_id ci) v = true ∧
    products db !! ci_product_id ci = Some p ∧
    item = {| cl_product_id := ci_product_id ci;
              cl_quantity := ci_quantity ci;
              cl_price_at_addition := ci_price_at_addition ci;
              cl_product_name := p_name p;
              cl_stock_quantity := p_stock_quantity p;
              cl_subtotal := ci_quantity ci * ci_price_at_addition ci |}.
Proof.
  unfold select_cart_items. rewrite list_elem_of_omap. split.
  - intros (ci & Hin & Hj).
    destruct (sql_eq_int (ci_cart_id ci) v) eqn:E; [|done].
    unfold join_product in Hj.
    destruct (products db !! ci_product_id ci) as [p|] eqn:Ep; [|done].
    simpl in Hj. injection Hj as <-. by exists ci, p.
  - intros (ci & p & Hin & E & Ep & ->). exists ci. split; [done|].
    rewrite E. unfold join_product. by rewrite Ep.
Qed.

Lemma select_cart_items_subtotal db v item :
  item ∈ select_cart_items db v →
  cl_subtotal item = cl_quantity item * cl_price_at_addition item.
Proof.
  rewrite elem_of_select_cart_items. by intros (ci & p & _ & _ & _ & ->).
Qed.

Lemma select_cart_items_product db v item :
  item ∈ select_cart_items db v →
  ∃ p, products db !! cl_product_id item = Some p ∧
       cl_product_name item = p_name p ∧
       cl_stock_quantity item = p_stock_quantity p.
Proof.
  rewrite elem_of_select_cart_items.
  intros (ci & p & _ & _ & Hp & ->). by exists p.
Qed.

Lemma select_cart_items_NoDup db v :
  unique_cart_product db →
  NoDup (cl_product_id <$> select_cart_items db v).
Proof.
  unfold unique_cart_product, select_cart_items.
  induction (cart_items db) as [|ci l IH]; [constructor|].
  rewrite fmap_cons, NoDup_cons. intros [Hfresh Hnd]. simpl.
  destruct (sql_eq_int (ci_cart_id ci) v) eqn:E; [|by apply IH].
  destruct (join_product db ci) as [item|] eqn:Ej; [|by apply IH].
  rewrite fmap_cons. apply NoDup_cons. split; [|by apply IH].
  intros Hin. apply Hfresh.
  apply list_elem_of_fmap in Hin as (item' & Heq & Hin).
  apply list_elem_of_omap in Hin as (ci' & Hin' & Hj').
  destruct (sql_eq_int (ci_cart_id ci') v) eqn:E'; [|done].
  apply list_elem_of_fmap. exists ci'. split; [|done].
  unfold join_product in *.
  destruct (products db !! ci_product_id ci); [|done].
  destruct (products db !! ci_product_id ci'); [|done].
  simpl in *. injection Ej as <-. injection Hj' as <-. simpl in Heq.
  unfold sql_eq_int in *.
  destruct (sql_int_of_param v) as [k|]; [|done].
  apply Z.eqb_eq in E, E'. congruence.
Qed.

Lemma verify_stock_None items :
  verify_stock items = None ↔ Forall (λ item, ¬ short item) items.
Proof.
  unfold short. induction items as [|item items IH]; simpl.
  - split; [constructor|done].
  - rewrite Forall_cons. destruct (Z.ltb_spec (cl_stock_quantity item)
                                     (cl_quantity item)).
    + split; [done|]. intros [? _]. lia.
    + rewrite IH. split; [|tauto]. intros ?. split; [lia|done].
Qed.

Lemma verify_stock_Some items item :
  verify_stock items = Some item ↔
  ∃ before after, items = before ++ item :: after ∧
    Forall (λ i, ¬ short i) before ∧ short item.
Proof.
  unfold short. induction items as [|i items IH]; simpl.
  - split; [done|]. intros (b & a & E & _). by destruct b.
  - destruct (Z.ltb_spec (cl_stock_quantity i) (cl_quantity i)).
    + split.
      * intros [= <-]. exists [], items. done.
      * intros ([|b0 b] & a & E & Hb & Hs); simpl in E.
        -- congruence.
        -- injection E as <- ->. apply Forall_cons in Hb as [? _]. lia.
    + rewrite IH. split.
      * intros (b & a & -> & Hb & Hs). exists (i :: b), a.
        split; [done|]. split; [|done]. constructor; [lia|done].
      * intros ([|b0 b] & a & E & Hb & Hs); simpl in E.
        -- injection E as <- ->. lia.
        -- injection E as <- ->. apply Forall_cons in Hb as [_ Hb].
           by exists b, a.
Qed.

Lemma imap_new_order_item db v :
  imap (λ i item,
          {| oi_id := order_items_auto_increment db + Z.of_nat i;
             oi_order_id := orders_auto_increment db;
             oi_product_id := cl_product_id item;
             oi_product_name := cl_product_name item;
             oi_quantity := cl_quantity item;
             oi_price := cl_price_at_addition item;
             oi_subtotal := cl_subtotal item |}) (select_cart_items db v)
  = imap (new_order_item db) (select_cart_items db v).
Proof.
  apply imap_ext. intros i item Hi. unfold new_order_item. f_equal.
  eapply select_cart_items_subtotal, list_elem_of_lookup_2, Hi.
Qed.

(** What a checkout that went through found and left behind. *)
Lemma post_orders_placed body db r db' :
  post_orders body db = (r, db') → placed r →
  let items := select_cart_items db (cart_id body) in
  ∃ u c crt,
    user_id body = JNum u ∧ is_Some (users db !! u) ∧
    truthy (cart_id body) = true ∧
    sql_int_of_param (cart_id body) = Some c ∧
    carts db !! c = Some crt ∧ c_status crt = "active" ∧ c_user_id crt = u ∧
    items ≠ [] ∧ Forall (λ item, ¬ short item) items ∧
    is_finite (totalAmount items) = true ∧
    r = placed_response body (orders_auto_increment db) items ∧
    users db' = users db ∧ cart_items db' = cart_items db ∧
    products db' = decrement_all items (products db) ∧
    carts db' = alter (set_cart_status "ordered") c (carts db) ∧
    orders db' = orders db ++ [new_order db body u c items] ∧
    orders_auto_increment db' = orders_auto_increment db + 1 ∧
    order_items db' = order_items db ++ imap (new_order_item db) items ∧
    order_items_auto_increment db' =
      order_items_auto_increment db + Z.of_nat (length items).
Proof.
  intros Hp Hr items. apply post_orders_outcome in Hp. fold items in Hp.
  destruct Hp as [[Hv _] | [(Hs & _) | Hok]].
  { apply validation_failure_status in Hv. unfold placed in Hr. lia. }
  { unfold placed in Hr. lia. }
  destruct Hok as ((Hu & Hc & Hf & k & crt & Hs & Ho) & Hne & Hv
                   & orderId & db1 & Hins & -> & ->).
  apply strict_eq_int_true in Ho.
  apply select_active_cart_inv in Hs as (_ & Hk & Hcrt & Hst).
  apply select_user_found in Hf as (u & Hu' & Hfound).
  rewrite Ho in Hu'. injection Hu' as <-.
  apply insert_order_ok in Hins
    as (u' & c' & Hu' & Hc' & Hfin & -> & E1 & E2 & E3 & E4 & E5 & E6
        & E7 & E8).
  rewrite Ho in Hu'. injection Hu' as <-.
  rewrite Hk in Hc'. injection Hc' as <-.
  pose proof (place_items_tables (orders_auto_increment db) items db1) as Hpl.
  cbn zeta in Hpl.
  destruct Hpl as (P1 & P2 & P3 & P4 & P5 & P6 & P7 & P8).
  exists (c_user_id crt), k, crt.
  unfold update_cart_status. rewrite Hk. simpl.
  rewrite P1, P2, P3, P4, P5, P6, P7, P8, E1, E2, E3, E4, E5, E6, E7, E8.
  repeat split; try done.
  - by apply verify_stock_None.
  - f_equal. apply imap_new_order_item.
Qed.
Lemma falsy_truthy v : falsy v ↔ truthy v = false.
Proof.
  unfold falsy. split.
  - intros [-> | [-> | [-> | [-> | ->]]]]; done.
  - destruct v as [| |[]|n|s]; simpl; try done; auto.
    + destruct (Z.eqb_spec n 0) as [->|]; [auto 10|done].
    + destruct s; [auto 10|done].
Qed.

Lemma validated_not_fails body db :
  owner_validated body db →
  select_cart_items db (cart_id body) ≠ [] →
  verify_stock (select_cart_items db (cart_id body)) = None →
  ¬ fails_validation body db.
Proof.
  intros (Hu & Hc & Hf' & k & c & Hs & Ho) Hne Hv Hf.
  apply verify_stock_None in Hv.
  destruct Hf as [E | [E | [E | [E | [(k' & c' & E & E') | [E | E]]]]]].
  - congruence.
  - congruence.
  - congruence.
  - congruence.
  - rewrite Hs in E. injection E as <- <-. congruence.
  - congruence.
  - apply Exists_exists in E as (item & Hin & Hsh).
    rewrite Forall_forall in Hv. by apply (Hv item).
Qed.

Lemma fails_validation_failure body db :
  fails_validation body db →
  ∃ r, validation_failure body db r ∧ ¬ placed r.
Proof.
  intros Hf.
  destruct (post_orders body db) as [r db'] eqn:Hp.
  destruct (post_orders_outcome _ _ _ _ Hp) as [[Hv _] | [Hs | Hok]].
  - exists r. split; [done|]. apply validation_failure_status in Hv.
    unfold placed. lia.
  - exfalso. destruct Hs as (_ & _ & Hov & Hne & Hv).
    by apply (validated_not_fails body db).
  - exfalso. destruct Hok as (Hov & Hne & Hv & _).
    by apply (validated_not_fails body db).
Qed.

(** C1: a checkout request that fails a step of the validation sequence
    (a missing [user_id] or [cart_id], no such user, no such active cart, a
    cart of another user, an empty cart, a line that exceeds the stock) is
    answered with the error of the first step it fails, and the store is
    left as it was: no order row, no order item, no stock decrement and no
    change of the cart's status. *)
Theorem failed_validation_leaves_store body db :
  fails_validation body db →
  ∃ r, validation_failure body db r ∧ ¬ placed r ∧
       post_orders body db = (r, db).
Proof.
  intros Hf. destruct (fails_validation_failure _ _ Hf) as (r & Hv & Hn).
  exists r. split; [done|]. split; [done|].
  by apply post_orders_validation_failure.
Qed.

(** C10: the presence test is JavaScript's [!]: [undefined], [null],
    [false], the number 0 and the empty string all count as a missing
    identifier, and the request is answered with 400 whatever the store
    holds, before any user or cart is looked up. *)
Theorem falsy_identifier_is_missing body db :
  falsy (user_id body) ∨ falsy (cart_id body) →
  post_orders body db =
    (error_response 400 "user_id and cart_id are required", db).
Proof.
  rewrite !falsy_truthy. intros Hf.
  apply post_orders_validation_failure. by constructor.
Qed.

(** C9: the stock verification loop answers on the first line, in the
    order of the query's rows, that asks for more than the stock; the
    lines after it, short or not, are not looked at and not reported. *)
Theorem first_short_line_reported body db before item after :
  owner_validated body db →
  select_cart_items db (cart_id body) = before ++ item :: after →
  Forall (λ i, ¬ short i) before → short item →
  post_orders body db = (insufficient_stock item, db).
Proof.
  intros Hov Hitems Hb Hs. apply post_orders_validation_failure.
  constructor; [done|]. apply verify_stock_Some. by exists before, after.
Qed.

(** C4: when a line of the cart asks for more than the product's current
    stock, the checkout does not go through and nothing is written, for
    any line; once the owner checks have passed, the answer is
    [Insufficient stock] with the name and the stock of a product that is
    short, and the quantity asked of it. *)
Theorem short_line_refused body db :
  Exists short (select_cart_items db (cart_id body)) →
  (¬ placed (post_orders body db).1 ∧ (post_orders body db).2 = db) ∧
  (owner_validated body db →
   ∃ item p, item ∈ select_cart_items db (cart_id body) ∧ short item ∧
     products db !! cl_product_id item = Some p ∧
     post_orders body db =
       ({| res_status := 400;
           res_json := JsonInsufficientStock "Insufficient stock"
                         (p_name p) (p_stock_quantity p) (cl_quantity item) |},
        db)).
Proof.
  intros Hex. split.
  - destruct (fails_validation_failure body db) as (r & Hv & Hn);
      [unfold fails_validation; tauto|].
    by rewrite (post_orders_validation_failure _ _ _ Hv).
  - intros Hov.
    destruct (verify_stock (select_cart_items db (cart_id body)))
      as [item|] eqn:Hv.
    + pose proof Hv as Hv'.
      apply verify_stock_Some in Hv' as (b & a & Hi & _ & Hs).
      assert (item ∈ select_cart_items db (cart_id body)) as Hin
        by (rewrite Hi; set_solver).
      destruct (select_cart_items_product _ _ _ Hin) as (p & Hp & Hn & Hq).
      exists item, p. do 3 (split; [done|]).
      rewrite <- Hn, <- Hq. apply post_orders_validation_failure.
      by constructor.
    + apply verify_stock_None in Hv. apply Exists_exists in Hex
        as (item & Hin & Hs). rewrite Forall_forall in Hv.
      by destruct (Hv item).
Qed.

Lemma includes_validStatuses status :
  includes validStatuses status = true ↔
  ∃ s, status = JStr s ∧
       s ∈ ["pending"; "processing"; "shipped"; "delivered"; "cancelled"].
Proof.
  unfold includes. split.
  - destruct status as [| | |?|s]; try done. intros Hin. exists s.
    split; [done|]. apply existsb_exists in Hin as (x & Hin & Heq).
    apply String.eqb_eq in Heq as ->. by apply list_elem_of_In.
  - intros (s & -> & Hin). apply existsb_exists. exists s.
    split; [by apply list_elem_of_In|]. apply String.eqb_refl.
Qed.

Lemma length_filter_0 {A} (P : A → Prop) `{∀ x, Decision (P x)} (l : list A) :
  length (filter P l) = 0%nat ↔ ¬ Exists P l.
Proof.
  induction l as [|x l IH]; simpl.
  - split; [|done]. intros _ E. inversion E.
  - rewrite filter_cons. destruct (decide (P x)) as [Hx|Hx]; simpl.
    + split; [done|]. intros Hn. destruct Hn. by left.
    + rewrite IH. split.
      * intros Hn E. inversion E; subst; done.
      * intros Hn E. apply Hn. by right.
Qed.

Lemma update_order_status_none db s id :
  ¬ Exists (λ o, sql_eq_int (o_id o) id = true) (orders db) →
  update_order_status db s id = (0%nat, db).
Proof.
  intros Hn. unfold update_order_status. f_equal.
  - by apply length_filter_0.
  - destruct db as [us ps cs cis os n ois m]; simpl in *. f_equal.
    induction os as [|o l IH]; [done|]. rewrite fmap_cons.
    rewrite IH by (intros E; apply Hn; by right). f_equal.
    destruct (sql_eq_int (o_id o) id) eqn:E; [|done].
    destruct Hn. by left.
Qed.

Lemma update_order_status_some db s id :
  Exists (λ o, sql_eq_int (o_id o) id = true) (orders db) →
  (update_order_status db s id).1 ≠ 0%nat.
Proof.
  intros Hex. unfold update_order_status. simpl.
  intros E. by apply length_filter_0 in E.
Qed.

(** C7: the status update accepts the five statuses [pending],
    [processing], [shipped], [delivered] and [cancelled] and no other
    value: any other value is answered with 400 and the store is left as
    it was; an accepted status is written to the order the identifier
    finds, and to nothing else, with answer 200; when the identifier finds
    no order the answer is 404 and the store is left as it was. *)
Theorem order_status_update id status db :
  (includes validStatuses status = true ↔
   ∃ s, status = JStr s ∧
        s ∈ ["pending"; "processing"; "shipped"; "delivered"; "cancelled"]) ∧
  (includes validStatuses status = false →
   put_order_status id status db =
     ({| res_status := 400;
         res_json := JsonInvalidStatus "Invalid status"
           ["pending"; "processing"; "shipped"; "delivered"; "cancelled"] |},
      db)) ∧
  (∀ s, status = JStr s → includes validStatuses status = true →
     (¬ Exists (order_found id) (orders db) →
      put_order_status id status db =
        (error_response 404 "Order not found", db)) ∧
     (Exists (order_found id) (orders db) →
      ∃ db', put_order_status id status db =
          ({| res_status := 200;
              res_json :=
                JsonStatusUpdated "Order status updated successfully" s |},
           db') ∧
        users db' = users db ∧ products db' = products db ∧
        carts db' = carts db ∧ cart_items db' = cart_items db ∧
        order_items db' = order_items db ∧
        length (orders db') = length (orders db) ∧
        ∀ i o, orders db !! i = Some o →
          ∃ o', orders db' !! i = Some o' ∧
            (order_found id o → o' = set_order_status s o ∧ o_status o' = s) ∧
            (¬ order_found id o → o' = o))).
Proof.
  split; [apply includes_validStatuses|]. split.
  - unfold put_order_status. by intros ->.
  - intros s -> Hinc. unfold put_order_status. rewrite Hinc. cbn [negb].
    split.
    + intros Hn. by rewrite update_order_status_none.
    + intros Hex. pose proof (update_order_status_some db s (JStr id) Hex) as Hne.
      destruct (update_order_status db s (JStr id)) as [n db'] eqn:Hup.
      simpl in Hne. destruct (Nat.eqb_spec n 0); [done|].
      exists db'. split; [done|].
      unfold update_order_status in Hup. injection Hup as _ <-. simpl.
      do 5 (split; [done|]). split; [by rewrite length_fmap|].
      intros i o Hi. rewrite list_lookup_fmap, Hi. simpl.
      eexists; split; [done|]. unfold order_found.
      destruct (sql_eq_int (o_id o) (JStr id)); split; done.
Qed.

Lemma ordered_quantity_not_in id items :
  id ∉ cl_product_id <$> items → ordered_quantity id items = 0.
Proof.
  induction items as [|item items IH]; [done|].
  rewrite fmap_cons, not_elem_of_cons. intros [Hne Hnin]. simpl.
  rewrite decide_False by done. rewrite IH by done. done.
Qed.

Lemma ordered_quantity_NoDup item items :
  NoDup (cl_product_id <$> items) → item ∈ items →
  ordered_quantity (cl_product_id item) items = cl_quantity item.
Proof.
  induction items as [|i items IH]; [by intros _ ?%elem_of_nil|].
  rewrite fmap_cons, NoDup_cons. intros [Hfresh Hnd] Hin. simpl.
  apply elem_of_cons in Hin as [->|Hin].
  - rewrite decide_True by done.
    rewrite ordered_quantity_not_in by done. lia.
  - rewrite decide_False.
    + rewrite IH by done. lia.
    + intros E. apply Hfresh. rewrite E. by apply list_elem_of_fmap_2.
Qed.

Lemma catalogue_decrement a p : catalogue (decrement a p) = catalogue p.
Proof. done. Qed.

(** The stock a checkout that went through leaves of a product on one of
    the cart's lines. *)
Lemma placed_line_stock db v items item :
  items = select_cart_items db v → unique_cart_product db → item ∈ items →
  ∃ p, products db !! cl_product_id item = Some p ∧
       cl_stock_quantity item = p_stock_quantity p ∧
       decrement_all items (products db) !! cl_product_id item =
         Some (decrement (cl_quantity item) p).
Proof.
  intros -> Hu Hin.
  destruct (select_cart_items_product _ _ _ Hin) as (p & Hp & _ & Hs).
  exists p. do 2 (split; [done|]).
  rewrite lookup_decrement_all, Hp. simpl.
  rewrite ordered_quantity_NoDup; [done| |done].
  by apply select_cart_items_NoDup.
Qed.

Lemma placed_stock_nonneg db v items :
  items = select_cart_items db v → unique_cart_product db →
  Forall (λ item, ¬ short item) items →
  (∀ id p, products db !! id = Some p → 0 ≤ p_stock_quantity p) →
  ∀ id p, decrement_all items (products db) !! id = Some p →
          0 ≤ p_stock_quantity p.
Proof.
  intros Hi Hu Hns Hnn id p'.
  destruct (decide (id ∈ cl_product_id <$> items)) as [Hin|Hnin].
  - apply list_elem_of_fmap in Hin as (item & -> & Hin).
    destruct (placed_line_stock db v items item Hi Hu Hin)
      as (p & Hp & Hs & ->).
    intros [= <-]. simpl. rewrite Forall_forall in Hns.
    specialize (Hns item Hin). unfold short in Hns. lia.
  - rewrite lookup_decrement_all, ordered_quantity_not_in by done.
    destruct (products db !! id) as [p|] eqn:Hp; [|done]. simpl.
    intros [= <-]. rewrite decrement_0. by apply (Hnn id).
Qed.



Lemma select_cart_items_decremented (g : Z → Z) db db' v :
  cart_items db' = cart_items db →
  (∀ id, products db' !! id = decrement (g id) <$> products db !! id) →
  select_cart_items db' v =
    (λ item, {| cl_product_id := cl_product_id item;
                cl_quantity := cl_quantity item;
                cl_price_at_addition := cl_price_at_addition item;
                cl_product_name := cl_product_name item;
                cl_stock_quantity :=
                  cl_stock_quantity item - g (cl_product_id item);
                cl_subtotal := cl_subtotal item |}) <$> select_cart_items db v.
Proof.
  intros Hcis Hl. unfold select_cart_items. rewrite Hcis. clear Hcis.
  induction (cart_items db) as [|ci l IH]; [done|]. cbn [omap list_omap].
  fold (omap (λ ci, if sql_eq_int (ci_cart_id ci) v
                    then join_product db' ci else None) l).
  fold (omap (λ ci, if sql_eq_int (ci_cart_id ci) v
                    then join_product db ci else None) l).
  rewrite IH.
  destruct (sql_eq_int (ci_cart_id ci) v); [|done].
  unfold join_product. rewrite Hl.
  by destruct (products db !! ci_product_id ci) as [p|].
Qed.


(** C6 (as amended): the checkout does not tell a missing cart from an
    inactive one: a cart identifier that finds no cart and one that finds
    a cart whose status is not [active], such as a cart already checked
    out, get the same answer, 404 [Cart not found or not active].  A
    second checkout of a cart that was checked out is therefore refused
    (with that 404 once its own identifiers are present and its user
    exists) and writes nothing: no second order, no order line, no stock
    update. *)
Theorem inactive_cart_not_found body db :
  truthy (user_id body) = true → truthy (cart_id body) = true →
  select_user db (user_id body) ≠ [] →
  ((∀ k, sql_int_of_param (cart_id body) = Some k → carts db !! k = None) →
   post_orders body db =
     (error_response 404 "Cart not found or not active", db)) ∧
  ((∃ k c, sql_int_of_param (cart_id body) = Some k ∧
           carts db !! k = Some c ∧ c_status c ≠ "active") →
   post_orders body db =
     (error_response 404 "Cart not found or not active", db)) ∧
  (∀ r db', post_orders body db = (r, db') → placed r →
     ∀ again,
       sql_int_of_param (cart_id again) = sql_int_of_param (cart_id body) →
       ∃ r2, post_orders again db' = (r2, db') ∧ ¬ placed r2 ∧
         (truthy (user_id again) = true → truthy (cart_id again) = true →
          select_user db' (user_id again) ≠ [] →
          r2 = error_response 404 "Cart not found or not active")).
Proof.
  intros Hu Hc Hf. split; [|split].
  - intros Hnone. apply post_orders_validation_failure.
    constructor; try done. apply select_active_cart_none.
    intros k c Hk Hkc. rewrite (Hnone k Hk) in Hkc. done.
  - intros (k & c & Hk & Hkc & Hst). apply post_orders_validation_failure.
    constructor; try done. apply select_active_cart_none.
    intros k' c' Hk' Hkc'. congruence.
  - intros r db' Hp Hr again Hsame.
    destruct (post_orders_placed _ _ _ _ Hp Hr)
      as (u & c & crt & _ & _ & _ & Hk & Hcrt & _ & _ & _ & _ & _ & _ & _ & _
          & _ & Hcs & _).
    assert (select_active_cart db' (cart_id again) = []) as Hgone.
    { apply select_active_cart_none. intros k' c' Hk' Hkc'.
      rewrite Hsame, Hk in Hk'. injection Hk' as <-.
      rewrite Hcs, lookup_alter, decide_True, Hcrt in Hkc' by done.
      injection Hkc' as <-. done. }
    destruct (fails_validation_failure again db') as (r2 & Hv & Hn);
      [unfold fails_validation; tauto|].
    exists r2. split; [by apply post_orders_validation_failure|].
    split; [done|]. intros Hu2 Hc2 Hf2.
    assert (validation_failure again db'
              (error_response 404 "Cart not found or not active")) as Hv'
      by by constructor.
    apply post_orders_validation_failure in Hv, Hv'. congruence.
Qed.

End Checkout.

(** ** Rounding: how far the floating-point total is from the exact one *)

Section Rounding.

Lemma round_half_even_error n d :
  0 ≤ n → 0 < d →
  let m := round_half_even n d in
  0 ≤ m ∧ 2 * Z.abs (m * d - n) ≤ d.
Proof.
  intros Hn Hd. unfold round_half_even.
  pose proof (Z.div_mod n d ltac:(lia)) as Hdm.
  pose proof (Z.mod_pos_bound n d Hd) as Hr.
  pose proof (Z.div_pos n d Hn Hd) as Hq.
  cbn zeta.
  destruct (Z.ltb_spec (2 * (n mod d)) d);
    [|destruct (Z.ltb_spec d (2 * (n mod d)));
      [|destruct (Z.even (n / d))]]; split; nia.
Qed.

Lemma ulp_of_le t e :
  0 ≤ e → t < 2 ^ (e + 53) → 0 < ulp_of t ≤ 2 ^ e.
Proof.
  intros He Ht. unfold ulp_of. split.
  - apply Z.pow_pos_nonneg; lia.
  - apply Z.pow_le_mono_r; [lia|].
    destruct (Z.le_gt_cases t 0) as [Hle|Hpos].
    + rewrite Z.log2_nonpos by done. lia.
    + apply Z.log2_lt_pow2 in Ht; lia.
Qed.

Lemma round_magnitude_error n d e :
  0 ≤ n → 0 < d → 0 ≤ e → n < d * 2 ^ (e + 53) →
  let k := round_magnitude n d in
  0 ≤ k ∧ 2 * Z.abs (k * d - n) ≤ d * 2 ^ e.
Proof.
  intros Hn Hd He Hlt. unfold round_magnitude. cbn zeta.
  assert (n / d < 2 ^ (e + 53)) as Ht.
  { apply Z.div_lt_upper_bound; lia. }
  destruct (ulp_of_le (n / d) e He Ht) as [Hu0 Hu].
  set (u := ulp_of (n / d)) in *.
  destruct (round_half_even_error n (d * u) Hn ltac:(nia)) as [Hm0 Hm].
  cbn zeta in Hm0, Hm. set (m := round_half_even n (d * u)) in *.
  split; [nia|].
  replace (m * u * d - n) with (m * (d * u) - n) by lia. nia.
Qed.

(** Below [2^27] the doubles are [2^-26] apart: [2^1048] units. *)
Lemma round_magnitude_near n d :
  0 ≤ n → 0 < d → n < d * (9007199254740992 * 2 ^ 1048) →
  let k := round_magnitude n d in
  0 ≤ k ∧ 2 * Z.abs (k * d - n) ≤ d * 2 ^ 1048.
Proof.
  intros Hn Hd Hlt. apply round_magnitude_error; [done..|].
  replace (2 ^ (1048 + 53)) with (9007199254740992 * 2 ^ 1048); [done|].
  rewrite Z.pow_add_r by lia. change (2 ^ 53) with 9007199254740992.
  apply Z.mul_comm.
Qed.

Lemma scale_unit : scale = 67108864 * 2 ^ 1048.
Proof. by vm_compute. Qed.

Lemma overflow_unit : overflow_threshold = 2 ^ 1050 * 2 ^ 1048.
Proof. by vm_compute. Qed.

Lemma round_to_double_near n d :
  0 ≤ n → 0 < d → n < d * (134217727 * scale) →
  ∃ k, round_to_double n d = Finite k ∧ 0 ≤ k ∧
       2 * Z.abs (k * d - n) ≤ d * 2 ^ 1048.
Proof.
  intros Hn Hd Hlt. unfold round_to_double. rewrite (Z.abs_eq n) by done.
  rewrite scale_unit in Hlt.
  destruct (round_magnitude_near n d Hn Hd) as [Hk Herr]; [nia|].
  cbn zeta in Hk, Herr. set (k := round_magnitude n d) in *.
  rewrite overflow_unit.
  assert (2 ^ 54 ≤ 2 ^ 1050) as Hbig by (apply Z.pow_le_mono_r; lia).
  change (2 ^ 54) with 18014398509481984 in Hbig.
  assert (0 < 2 ^ 1048) as HU by (apply Z.pow_pos_nonneg; lia).
  set (U := 2 ^ 1048) in *. set (V := 2 ^ 1050) in *.
  clearbody U V.
  assert (k < V * U) as Hsmall.
  { apply (Z.mul_lt_mono_pos_r d); [done|].
    assert (k * d ≤ n + d * U) by lia.
    assert (18014398509481984 * U * d ≤ V * U * d) by nia. nia. }
  destruct (Z.leb_spec (V * U) k); [lia|].
  exists (Z.sgn n * k). split; [done|].
  destruct (Z.eq_dec n 0) as [->|Hne].
  - simpl. split; [lia|]. simpl in Herr. lia.
  - rewrite Z.sgn_pos by lia. rewrite Z.mul_1_l. done.
Qed.

Lemma parseFloat_near c :
  0 ≤ c ≤ 10000000000 →
  ∃ f, parseFloat c = Finite f ∧ 0 ≤ f ∧
       2 * Z.abs (f * 100 - c * scale) ≤ 100 * 2 ^ 1048.
Proof.
  intros Hc. unfold parseFloat. apply round_to_double_near; [|lia|].
  - assert (0 < scale) by (by vm_compute). nia.
  - assert (0 < scale) by (by vm_compute). nia.
Qed.

Lemma js_add_near a b :
  0 ≤ a → 0 ≤ b → a + b < 134217727 * scale →
  ∃ s, js_add (Finite a) (Finite b) = Finite s ∧ 0 ≤ s ∧
       2 * Z.abs (s - (a + b)) ≤ 2 ^ 1048.
Proof.
  intros Ha Hb Hlt. unfold js_add.
  destruct (round_to_double_near (a + b) 1) as (s & -> & Hs & Herr);
    [lia..|].
  exists s. split; [done|]. split; [done|]. lia.
Qed.

(** The running sum stays within [n] times [2^-26] of the exact one. *)
Lemma total_from_near items :
  ∀ a C n,
    0 ≤ a → 0 ≤ C → 0 ≤ n →
    2 * Z.abs (a * 100 - C * scale) ≤ n * (200 * 2 ^ 1048) →
    Forall (λ item, 0 ≤ cl_subtotal item) items →
    C + foldr (λ item acc, cl_subtotal item + acc) 0 items ≤ 10000000000 →
    n + Z.of_nat (length items) ≤ 335544 →
    ∃ s, fold_left (λ sum item, js_add sum (parseFloat (cl_subtotal item)))
           items (Finite a) = Finite s ∧ 0 ≤ s ∧
         2 * Z.abs (s * 100
                    - (C + foldr (λ item acc, cl_subtotal item + acc) 0 items)
                      * scale)
         ≤ (n + Z.of_nat (length items)) * (200 * 2 ^ 1048).
Proof.
  induction items as [|item items IH]; intros a C n Ha HC Hn Herr Hpos Hsum Hlen.
  - exists a. simpl in *. rewrite !Z.add_0_r. done.
  - apply Forall_cons in Hpos as [Hc Hpos]. cbn [foldr] in Hsum |- *.
    set (rest := foldr (λ item acc, cl_subtotal item + acc) 0 items) in *.
    assert (0 ≤ rest) as Hrest.
    { unfold rest. clear -Hpos. induction Hpos; simpl; lia. }
    rewrite length_cons, Nat2Z.inj_succ in Hlen |- *.
    cbn [fold_left].
    set (c := cl_subtotal item) in *.
    destruct (parseFloat_near c) as (f & Hf & Hf0 & Hferr); [lia|].
    pose proof scale_unit as HS.
    assert (0 < 2 ^ 1048) as HU by (apply Z.pow_pos_nonneg; lia).
    set (U := 2 ^ 1048) in *.
    assert (n * U ≤ 335544 * U) as HnU by nia.
    assert ((C + c) * U ≤ 10000000000 * U) as HCU by nia.
    assert (0 ≤ C * U ∧ 0 ≤ c * U) as [HCU0 HcU0] by nia.
    destruct (js_add_near a f) as (s & Hs & Hs0 & Hserr); [done..| |].
    { rewrite HS. lia. }
    rewrite Hf, Hs.
    destruct (IH s (C + c) (n + 1)) as (t & Ht & Ht0 & Hterr);
      [lia..| | done | lia | lia |].
    { fold U in Hserr. rewrite HS in *. lia. }
    exists t. split; [done|]. split; [done|].
    replace (C + (c + rest)) with (C + c + rest) by lia.
    replace (n + Z.succ (Z.of_nat (length items)))
      with (n + 1 + Z.of_nat (length items)) by lia.
    done.
Qed.

Context `{Runtime}.

Lemma totalAmount_to_the_cent items :
  Forall (λ item, 0 ≤ cl_subtotal item) items →
  foldr (λ item acc, cl_subtotal item + acc) 0 items ≤ 10000000000 →
  Z.of_nat (length items) ≤ 335544 →
  ∃ s, totalAmount items = Finite s ∧ 0 ≤ s ∧
       nearest_hundredths s =
         foldr (λ item acc, cl_subtotal item + acc) 0 items ∧
       toFixed2 (totalAmount items) =
         decimal_to_string
           (foldr (λ item acc, cl_subtotal item + acc) 0 items).
Proof.
  intros Hpos Hsum Hlen. unfold totalAmount.
  destruct (total_from_near items 0 0 0) as (s & Hs & Hs0 & Herr);
    [lia..| | done | lia | lia |].
  { simpl. lia. }
  rewrite !Z.add_0_l in Herr.
  set (T := foldr (λ item acc, cl_subtotal item + acc) 0 items) in *.
  assert (0 ≤ T) as HT.
  { unfold T. clear -Hpos. induction Hpos; simpl; lia. }
  pose proof scale_unit as HS.
  assert (0 < 2 ^ 1048) as HU by (apply Z.pow_pos_nonneg; lia).
  set (U := 2 ^ 1048) in *.
  assert (Z.of_nat (length items) * U ≤ 335544 * U) as HnU by nia.
  assert (T * U ≤ 10000000000 * U) as HTU by nia.
  assert (0 ≤ T * U) as HTU0 by nia.
  assert (nearest_hundredths s = T) as Hn.
  { unfold nearest_hundredths. symmetry.
    apply (Z.div_unique_pos _ _ _ (2 * 100 * s + scale - 2 * scale * T));
      rewrite HS in *; lia. }
  exists s. rewrite Hs. do 2 (split; [done|]). split; [done|].
  unfold toFixed2. rewrite (Z.abs_eq s) by done. rewrite Hn.
  destruct (Z.ltb_spec s 0); [lia|].
  destruct (Z.leb_spec (10 ^ 21 * scale) s) as [Hbig|_]; [|done].
  exfalso. change (10 ^ 21) with 1000000000000000000000 in Hbig.
  rewrite HS in *. lia.
Qed.
End Rounding.

(** ** Decimal text *)

Lemma pretty_digit d : 0 ≤ d ≤ 9 → pretty d = String (digit d) EmptyString.
Proof.
  intros Hd.
  assert (d = 0 ∨ d = 1 ∨ d = 2 ∨ d = 3 ∨ d = 4 ∨ d = 5 ∨ d = 6 ∨ d = 7
          ∨ d = 8 ∨ d = 9) as Hc by lia.
  repeat destruct Hc as [->|Hc]; try subst d; by vm_compute.
Qed.

Lemma two_digits_spec n :
  0 ≤ n < 100 →
  two_digits n = String (digit (n / 10)) (String (digit (n mod 10)) EmptyString).
Proof.
  intros Hn. unfold two_digits.
  rewrite (pretty_digit (n / 10)), (pretty_digit (n mod 10)); [done| |].
  - pose proof (Z.mod_pos_bound n 10). lia.
  - split; [apply Z.div_pos; lia|].
    assert (n / 10 < 10) by (apply Z.div_lt_upper_bound; lia). lia.
Qed.

(** The number model and the Standard Library's binary64 operations agree
    on the cents from 0.00 to 0.39 and on a few larger amounts. *)
Example parseFloat_agrees_spec_float :
  forallb parseFloat_agrees
    (seqZ 0 40 ++ [999; 1998; 3498; 999999; 123456789; 9999999999; -1998])
  = true.
Proof. by vm_compute. Qed.

(** The text of large doubles: [1e+21], [1.5e+21] and the double nearest
    to [10^23]. *)
Example exponential_examples :
  exponential (10 ^ 21 * scale) = "1e+21" ∧
  exponential (15 * 10 ^ 20 * scale) = "1.5e+21" ∧
  exponential (99999999999999991611392 * scale) = "1e+23" ∧
  exponential (123456789012345685803008 * scale) = "1.2345678901234569e+23".
Proof. by vm_compute. Qed.

(** [toFixed(2)] rounds the double, not the decimal it was written as:
    1.005 and 1.255 are doubles below the half cent, 8.345 is one above
    it, and 0.125, a double on the half cent, goes up. *)
Example toFixed2_examples :
  toFixed2 (thousandth 1005) = "1.00" ∧ toFixed2 (thousandth 1255) = "1.25" ∧
  toFixed2 (thousandth 8345) = "8.35" ∧ toFixed2 (thousandth 125) = "0.13" ∧
  toFixed2 (thousandth (-1255)) = "-1.25" ∧
  toFixed2 (js_add (parseFloat 10) (parseFloat 20)) = "0.30" ∧
  toFixed2 (thousandth (-15 * 10 ^ 23)) = "-1.5e+21".
Proof. by vm_compute. Qed.

Example js_add_agrees_spec_float :
  forallb (λ a, forallb (js_add_agrees a) [0; 1; 10; 20; 1500; 9999999999; -30])
          [0; 10; 20; 30; 1998; 123456789; -1998] = true.
Proof. by vm_compute. Qed.

(** ** The total of a checkout *)

Section Total.
Context `{Runtime}.

Lemma exact_total_subtotals db v :
  foldr (λ item acc, cl_subtotal item + acc) 0 (select_cart_items db v) =
  exact_total (select_cart_items db v).
Proof.
  unfold exact_total.
  assert (Forall (λ item, cl_subtotal item =
                          cl_quantity item * cl_price_at_addition item)
                 (select_cart_items db v)) as Hall.
  { apply Forall_forall. intros item. apply select_cart_items_subtotal. }
  induction Hall as [|item items Hi _ IH]; simpl; [done|]. by rewrite Hi, IH.
Qed.

Lemma totalAmount_of_products items :
  Forall (λ item, cl_subtotal item =
                  cl_quantity item * cl_price_at_addition item) items →
  totalAmount items =
    fold_left (λ sum item,
                 js_add sum
                   (parseFloat (cl_quantity item * cl_price_at_addition item)))
              items (Finite 0).
Proof.
  intros Hsub. unfold totalAmount. generalize (Finite 0).
  induction Hsub as [|item l Hi _ IH]; intros acc; simpl; [done|].
  by rewrite Hi, IH.
Qed.

Lemma decimal_to_string_places c :
  0 ≤ c →
  decimal_to_string c =
    pretty (c / 100) +:+ "." +:+
    String (digit (c mod 100 / 10)) (String (digit (c mod 10)) EmptyString).
Proof.
  intros Hc. unfold decimal_to_string.
  destruct (Z.ltb_spec c 0); [lia|]. rewrite Z.abs_eq by done.
  rewrite two_digits_spec by (apply Z.mod_pos_bound; lia).
  replace (c mod 100 mod 10) with (c mod 10)
    by (Z.to_euclidean_division_equations; lia).
  done.
Qed.

End Total.

(** ** The properties on the sample store *)

Lemma shop_owner_validated_102 : owner_validated (checkout 1 102) shop.
Proof.
  unfold owner_validated. split; [reflexivity|]. split; [reflexivity|].
  split; [by vm_compute|]. eexists _, _. split; by vm_compute.
Defined.

Lemma failed_validation_leaves_store_witness :
  fails_validation (checkout 1 102) shop ∧
  ∃ r, validation_failure (checkout 1 102) shop r ∧ ¬ placed r ∧
       post_orders (checkout 1 102) shop = (r, shop).
Proof.
  assert (fails_validation (checkout 1 102) shop) as Hf.
  { unfold fails_validation. do 6 right.
    apply Exists_cons_tl, Exists_cons_hd. by vm_compute. }
  split; [exact Hf|]. exact (failed_validation_leaves_store _ _ Hf).
Defined.

Lemma falsy_identifier_is_missing_witness :
  post_orders {| user_id := JNum 0; cart_id := JNum 100;
                 shipping_address := JUndefined;
                 payment_method := JUndefined |} shop =
    (error_response 400 "user_id and cart_id are required", shop) ∧
  post_orders {| user_id := JNum 1; cart_id := JStr EmptyString;
                 shipping_address := JUndefined;
                 payment_method := JUndefined |} shop =
    (error_response 400 "user_id and cart_id are required", shop).
Proof.
  split; apply falsy_identifier_is_missing; unfold falsy; simpl.
  - left. auto 10.
  - right. auto 10.
Defined.

Lemma first_short_line_reported_witness :
  post_orders (checkout 1 102) shop =
    ({| res_status := 400;
        res_json := JsonInsufficientStock "Insufficient stock" "productB" 3 4 |},
     shop).
Proof.
  apply (first_short_line_reported (checkout 1 102) shop
           [ {| cl_product_id := 10; cl_quantity := 1;
                cl_price_at_addition := 999; cl_product_name := "productA";
                cl_stock_quantity := 5; cl_subtotal := 999 |} ]
           {| cl_product_id := 11; cl_quantity := 4;
              cl_price_at_addition := 1500; cl_product_name := "productB";
              cl_stock_quantity := 3; cl_subtotal := 6000 |}
           [ {| cl_product_id := 12; cl_quantity := 1;
                cl_price_at_addition := 250; cl_product_name := "productC";
                cl_stock_quantity := 0; cl_subtotal := 250 |} ]).
  - exact shop_owner_validated_102.
  - by vm_compute.
  - constructor; [|constructor]. unfold short. simpl. lia.
  - unfold short. simpl. lia.
Defined.

Lemma short_line_refused_witness :
  Exists short (select_cart_items shop (cart_id (checkout 1 102))) ∧
  (¬ placed (post_orders (checkout 1 102) shop).1 ∧
   (post_orders (checkout 1 102) shop).2 = shop).
Proof.
  assert (Exists short (select_cart_items shop (cart_id (checkout 1 102))))
    as Hex.
  { apply Exists_cons_tl, Exists_cons_hd. by vm_compute. }
  split; [exact Hex|]. exact (proj1 (short_line_refused _ _ Hex)).
Defined.

Lemma shop_unique_cart_product : unique_cart_product shop.
Proof. unfold unique_cart_product. apply (bool_decide_unpack _). by vm_compute. Defined.

Lemma shop_stock_nonneg : stock_nonneg shop.
Proof.
  change (map_Forall (λ _ p, 0 ≤ p_stock_quantity p) (products shop)).
  apply (bool_decide_unpack _). by vm_compute.
Defined.



Lemma shop_placed_100 : placed (post_orders (checkout 1 100) shop).1.
Proof. by vm_compute. Defined.



Lemma inactive_cart_not_found_witness :
  post_orders (checkout 2 101) shop =
    (error_response 404 "Cart not found or not active", shop) ∧
  post_orders (checkout 2 999) shop =
    (error_response 404 "Cart not found or not active", shop).
Proof.
  assert (select_user shop (JNum 2) ≠ []) as Hu by (by vm_compute).
  destruct (inactive_cart_not_found (checkout 2 101) shop eq_refl eq_refl Hu)
    as (_ & Hinactive & _).
  destruct (inactive_cart_not_found (checkout 2 999) shop eq_refl eq_refl Hu)
    as (Hmissing & _ & _).
  split.
  - apply Hinactive. eexists 101, _. split; [reflexivity|].
    split; by vm_compute.
  - apply Hmissing. intros k Hk. simpl in Hk. injection Hk as <-.
    by vm_compute.
Defined.

(** A cart that exists and was checked out gets 404, not 400. *)
Lemma checked_out_cart_gets_404 :
  c_status <$> carts shop !! 101 = Some "ordered" ∧
  post_orders (checkout 2 101) shop =
    (error_response 404 "Cart not found or not active", shop) ∧
  res_status (post_orders (checkout 2 101) shop).1 ≠ 400.
Proof. split; [by vm_compute|]. split; by vm_compute. Qed.

Lemma order_status_update_witness :
  Exists (order_found "1") (orders shop) ∧
  ∃ db', put_order_status "1" (JStr "shipped") shop =
           ({| res_status := 200;
               res_json :=
                 JsonStatusUpdated "Order status updated successfully"
                                   "shipped" |}, db') ∧
         o_status <$> orders db' = ["shipped"].
Proof.
  assert (Exists (order_found "1") (orders shop)) as Hex
    by (apply Exists_cons_hd; by vm_compute).
  split; [exact Hex|].
  destruct (order_status_update "1" (JStr "shipped") shop) as (_ & _ & Hs).
  destruct (Hs "shipped" eq_refl eq_refl) as [_ Hup].
  destruct (Hup Hex) as (db' & Hput & _).
  exists db'. split; [exact Hput|].
  assert (db' = (put_order_status "1" (JStr "shipped") shop).2) as ->
    by (by rewrite Hput).
  by vm_compute.
Defined.



(** * The cart service, the product service and reading orders back *)

(** ** Reading an order back *)

Section ReadOrder.
Context `{Runtime}.

Lemma omap_none {A B} (f : A → option B) (l : list A) :
  Forall (λ x, f x = None) l → omap f l = [].
Proof. induction 1 as [|x l Hx _ IH]; simpl; [done|]. by rewrite Hx. Qed.

Lemma filter_none {A} (P : A → Prop) `{∀ x, Decision (P x)} (l : list A) :
  Forall (λ x, ¬ P x) l → filter P l = [].
Proof.
  induction 1 as [|x l Hx _ IH]; [done|].
  rewrite filter_cons, decide_False by done. done.
Qed.

Lemma filter_all {A} (P : A → Prop) `{∀ x, Decision (P x)} (l : list A) :
  Forall P l → filter P l = l.
Proof.
  induction 1 as [|x l Hx _ IH]; [done|].
  rewrite filter_cons, decide_True by done. by rewrite IH.
Qed.

Lemma sql_eq_int_path id k column :
  mysql_int_of_string id = Some k →
  sql_eq_int column (JStr id) = (column =? k).
Proof. intros Hid. unfold sql_eq_int. simpl. by rewrite Hid. Qed.


End ReadOrder.

(** ** Status updates and what is read afterwards *)

Section StatusAndRead.
Context `{Runtime}.

Lemma put_order_status_valid id s db :
  includes validStatuses (JStr s) = true →
  put_order_status id (JStr s) db =
    (if (length (filter (λ o, sql_eq_int (o_id o) (JStr id) = true)
                        (orders db)) =? 0)%nat
     then {| res_status := 404; res_json := JsonError "Order not found" |}
     else {| res_status := 200;
             res_json :=
               JsonStatusUpdated "Order status updated successfully" s |},
     (update_order_status db s (JStr id)).2).
Proof.
  intros Hv. unfold put_order_status. rewrite Hv. cbn [negb].
  unfold update_order_status. by destruct (_ =? _)%nat.
Qed.

Lemma filter_found_set_status s v (l : list order) :
  filter (λ o, sql_eq_int (o_id o) v = true)
    ((λ o, if sql_eq_int (o_id o) v then set_order_status s o else o) <$> l)
  = set_order_status s <$> filter (λ o, sql_eq_int (o_id o) v = true) l.
Proof.
  induction l as [|o l IH]; [done|]. rewrite fmap_cons, !filter_cons, IH.
  destruct (sql_eq_int (o_id o) v) eqn:E;
    repeat case_decide; simpl in *; try congruence; done.
Qed.

(** X2: a status update is read back: after [PUT /orders/:id/status] has
    written a status, [GET /orders/:id] answers with the same order, user
    and lines as before, the status being the one written. *)
Theorem status_update_is_read_back id s db r db' o username email items n :
  includes validStatuses (JStr s) = true →
  put_order_status id (JStr s) db = (r, db') →
  get_order id db =
    {| reply_status := 200;
       reply_json := OrderView o username email items n |} →
  res_status r = 200 ∧
  get_order id db' =
    {| reply_status := 200;
       reply_json :=
         OrderView (set_order_status s o) username email items n |} ∧
  o_status (set_order_status s o) = s ∧
  o_total_amount (set_order_status s o) = o_total_amount o.
Proof.
  intros Hv Hput Hget. rewrite put_order_status_valid in Hput by done.
  injection Hput as <- <-. unfold get_order in *.
  unfold update_order_status, select_order, select_order_items in *.
  cbn [snd orders users order_items] in *.
  set (v := JStr id) in *.
  assert (∃ rest, omap (λ o0, if sql_eq_int (o_id o0) v
                              then u ← users db !! o_user_id o0;
                                   Some (o0, u_username u, u_email u)
                              else None) (orders db)
                  = (o, username, email) :: rest) as [rest Hsel].
  { destruct (omap _ (orders db)) as [|[[o0 un] em] rest]; [done|].
    injection Hget as -> -> -> _ _. by exists rest. }
  rewrite Hsel in Hget. injection Hget as <- <-.
  split; [|split; [|done]].
  - assert (Exists (λ o0, sql_eq_int (o_id o0) v = true) (orders db)) as Hex.
    { assert ((o, username, email) ∈ omap (λ o0, if sql_eq_int (o_id o0) v
                              then u ← users db !! o_user_id o0;
                                   Some (o0, u_username u, u_email u)
                              else None) (orders db)) as Hin
        by (rewrite Hsel; left).
      apply list_elem_of_omap in Hin as (o0 & Hin & Hf).
      apply Exists_exists. exists o0. split; [done|].
      by destruct (sql_eq_int (o_id o0) v). }
    destruct (Nat.eqb_spec (length (filter (λ o0, sql_eq_int (o_id o0) v = true)
                                      (orders db))) 0) as [E|E]; [|done].
    by apply length_filter_0 in E.
  - assert (omap (λ o0, if sql_eq_int (o_id o0) v
                        then u ← users db !! o_user_id o0;
                             Some (o0, u_username u, u_email u)
                        else None)
              ((λ o0, if sql_eq_int (o_id o0) v
                      then set_order_status s o0 else o0) <$> orders db)
            = (λ x, (set_order_status s x.1.1, x.1.2, x.2)) <$>
              omap (λ o0, if sql_eq_int (o_id o0) v
                          then u ← users db !! o_user_id o0;
                               Some (o0, u_username u, u_email u)
                          else None) (orders db)) as ->.
    { clear. induction (orders db) as [|o0 l IH]; [done|].
      rewrite fmap_cons. cbn [omap list_omap].
      fold (omap (λ o0, if sql_eq_int (o_id o0) v
                        then u ← users db !! o_user_id o0;
                             Some (o0, u_username u, u_email u)
                        else None) l).
      fold (omap (λ o0, if sql_eq_int (o_id o0) v
                        then u ← users db !! o_user_id o0;
                             Some (o0, u_username u, u_email u)
                        else None)
              ((λ o1, if sql_eq_int (o_id o1) v
                      then set_order_status s o1 else o1) <$> l)).
      rewrite IH. destruct (sql_eq_int (o_id o0) v) eqn:E.
      - simpl. rewrite E.
        by destruct (users db !! o_user_id o0).
      - by rewrite E. }
    rewrite Hsel. done.
Qed.

(** X3: status updates compose: of two updates of the same order the
    last one wins, so that repeating an update changes nothing more, and
    the answer to the last one does not depend on the one before. *)
Theorem status_updates_last_wins id s1 s2 db :
  includes validStatuses (JStr s2) = true →
  put_order_status id (JStr s2) (put_order_status id s1 db).2 =
  put_order_status id (JStr s2) db.
Proof.
  intros Hv2.
  destruct (includes validStatuses s1) eqn:Hv1.
  - destruct s1 as [| | | |s]; try done.
    rewrite (put_order_status_valid id s db Hv1). cbn [snd].
    rewrite !put_order_status_valid by done.
    unfold update_order_status.
    cbn [snd orders users products carts cart_items orders_auto_increment
         order_items order_items_auto_increment].
    rewrite filter_found_set_status, length_fmap, <- list_fmap_compose.
    do 2 f_equal. apply list_fmap_ext. intros i o _. simpl.
    destruct (sql_eq_int (o_id o) (JStr id)) eqn:E; simpl; by rewrite E.
  - unfold put_order_status at 2. by rewrite Hv1.
Qed.

End StatusAndRead.

(** ** Adding items to a cart *)

Section AddItem.
Context `{Runtime} `{Coercions}.

Lemma scale_pos : 0 < scale.
Proof. by vm_compute. Qed.

Lemma number_le_int q : number_le (to_number (JNum q)) (Finite 0) = (q <=? 0).
Proof.
  pose proof scale_pos. simpl.
  destruct (Z.ltb_spec 0 (q * scale)), (Z.leb_spec q 0); simpl; [nia|done|done|nia].
Qed.

Lemma number_lt_int n q :
  number_lt (Finite (n * scale)) (to_number (JNum q)) = (n <? q).
Proof.
  pose proof scale_pos. simpl.
  destruct (Z.ltb_spec (n * scale) (q * scale)), (Z.ltb_spec n q);
    [done|nia|nia|done].
Qed.

Lemma select_cart_inv db v k c rest :
  select_cart db v = (k, c) :: rest →
  rest = [] ∧ sql_int_of_param v = Some k ∧ carts db !! k = Some c.
Proof.
  unfold select_cart. destruct (sql_int_of_param v) as [k'|]; [|done].
  destruct (carts db !! k') as [c'|] eqn:E; [|done]. by intros [= <- <- <-].
Qed.

Lemma select_product_inv db v k p rest :
  select_product db v = (k, p) :: rest →
  rest = [] ∧ sql_int_of_param v = Some k ∧ products db !! k = Some p.
Proof.
  unfold select_product. destruct (sql_int_of_param v) as [k'|]; [|done].
  destruct (products db !! k') as [p'|] eqn:E; [|done]. by intros [= <- <- <-].
Qed.

(** What an added item found and what the statement was. *)
Lemma cart_add_item_added body s r s' :
  cart_add_item body s = (r, s') → reply_status r = 201 →
  ∃ c crt p prod,
    truthy (ai_cart_id body) = true ∧ truthy (ai_product_id body) = true ∧
    truthy (ai_quantity body) = true ∧
    number_le (to_number (ai_quantity body)) (Finite 0) = false ∧
    sql_int_of_param (ai_cart_id body) = Some c ∧
    carts (tables s) !! c = Some crt ∧ c_status crt = "active" ∧
    sql_int_of_param (ai_product_id body) = Some p ∧
    products (tables s) !! p = Some prod ∧
    number_lt (Finite (p_stock_quantity prod * scale))
              (to_number (ai_quantity body)) = false ∧
    upsert_cart_item s (ai_cart_id body) (ai_product_id body)
      (ai_quantity body) (p_price prod) = Ok s' ∧
    r = {| reply_status := 201;
           reply_json :=
             CartItemAdded "Item added to cart successfully"
               {| ap_id := p; ap_name := p_name prod;
                  ap_price := decimal_to_string (p_price prod);
                  ap_quantity := ai_quantity body |} |}.
Proof.
  unfold cart_add_item. cbn zeta. intros Hadd Hr.
  destruct (truthy (ai_cart_id body)) eqn:Hc; cbn [negb orb] in Hadd;
    [|by injection Hadd as <- <-].
  destruct (truthy (ai_product_id body)) eqn:Hp; cbn [negb orb] in Hadd;
    [|by injection Hadd as <- <-].
  destruct (truthy (ai_quantity body)) eqn:Hq; cbn [negb orb] in Hadd;
    [|by injection Hadd as <- <-].
  destruct (number_le _ _) eqn:Hle; [by injection Hadd as <- <-|].
  destruct (select_cart _ _) as [|[c crt] rest] eqn:Hsc;
    [by injection Hadd as <- <-|].
  apply select_cart_inv in Hsc as (-> & Hck & Hcrt).
  destruct (String.eqb (c_status crt) "active") eqn:Hst; cbn [negb] in Hadd;
    [|by injection Hadd as <- <-].
  apply String.eqb_eq in Hst.
  destruct (select_product _ _) as [|[p prod] rest] eqn:Hsp;
    [by injection Hadd as <- <-|].
  apply select_product_inv in Hsp as (-> & Hpk & Hprod).
  destruct (number_lt _ _) eqn:Hlt; [by injection Hadd as <- <-|].
  destruct (upsert_cart_item _ _ _ _ _) as [s1|msg] eqn:Hup;
    [|by injection Hadd as <- <-].
  injection Hadd as <- <-. exists c, crt, p, prod. done.
Qed.

Lemma cart_add_item_refused body s r s' :
  cart_add_item body s = (r, s') → reply_status r ≠ 201 → s' = s.
Proof.
  unfold cart_add_item. cbn zeta. intros Hadd Hr.
  repeat match type of Hadd with
         | (if ?b then _ else _) = _ => destruct b
         | match ?l with _ => _ end = _ => destruct l as [|[??]?]
         end; try (by injection Hadd as <- <-).
  destruct (upsert_cart_item _ _ _ _ _); by injection Hadd as <- <-.
Qed.

(** X4: [POST /cart/items] writes nothing unless it answers 201, and,
    unlike the checkout, it tells a missing cart from an inactive one: a
    cart identifier that finds no cart is answered with 404
    [Cart not found], one that finds a cart whose status is not [active]
    with 400 [Cart is not active]. *)
Theorem add_item_refusals body s :
  truthy (ai_cart_id body) = true → truthy (ai_product_id body) = true →
  truthy (ai_quantity body) = true →
  number_le (to_number (ai_quantity body)) (Finite 0) = false →
  (∀ r s', cart_add_item body s = (r, s') → reply_status r ≠ 201 → s' = s) ∧
  ((∀ k, sql_int_of_param (ai_cart_id body) = Some k →
         carts (tables s) !! k = None) →
   cart_add_item body s =
     ({| reply_status := 404; reply_json := CartError "Cart not found" |}, s)) ∧
  (∀ k c, sql_int_of_param (ai_cart_id body) = Some k →
          carts (tables s) !! k = Some c → c_status c ≠ "active" →
   cart_add_item body s =
     ({| reply_status := 400; reply_json := CartError "Cart is not active" |},
      s)).
Proof.
  intros Hc Hp Hq Hle. split; [|split].
  - intros r s'. apply cart_add_item_refused.
  - intros Hnone. unfold cart_add_item. cbn zeta.
    rewrite Hc, Hp, Hq, Hle. cbn [negb orb]. unfold select_cart.
    destruct (sql_int_of_param (ai_cart_id body)) as [k|]; [|done].
    by rewrite (Hnone k eq_refl).
  - intros k c Hk Hkc Hst. unfold cart_add_item. cbn zeta.
    rewrite Hc, Hp, Hq, Hle. cbn [negb orb]. unfold select_cart.
    rewrite Hk, Hkc. apply String.eqb_neq in Hst. by rewrite Hst.
Qed.

End AddItem.

Section AddItemEffect.
Context `{Runtime} `{Coercions}.

Lemma same_line_add_to_line c p q price ci :
  same_line c p (add_to_line q price ci) = same_line c p ci.
Proof. done. Qed.

Lemma existsb_same_line_false c p (rows : list cart_item) :
  existsb (same_line c p) rows = false →
  filter (λ ci, same_line c p ci = true) rows = [].
Proof.
  intros Hex. apply filter_none. apply Forall_forall. intros ci Hin Hs.
  assert (existsb (same_line c p) rows = true); [|congruence].
  apply existsb_exists. exists ci. split; [by apply list_elem_of_In|done].
Qed.

Lemma same_line_true c p ci :
  same_line c p ci = true ↔ ci_cart_id ci = c ∧ ci_product_id ci = p.
Proof. unfold same_line. rewrite andb_true_iff, !Z.eqb_eq. done. Qed.

(** The rows of [cart_items] after the statement of an added item. *)
Lemma upsert_cart_item_rows s vc vp vq price s' :
  upsert_cart_item s vc vp vq price = Ok s' →
  ∃ c p q,
    sql_int_of_assigned vc = Some c ∧ sql_int_of_assigned vp = Some p ∧
    sql_int_of_assigned vq = Some q ∧
    users (tables s') = users (tables s) ∧
    products (tables s') = products (tables s) ∧
    carts (tables s') = carts (tables s) ∧
    orders (tables s') = orders (tables s) ∧
    order_items (tables s') = order_items (tables s) ∧
    orders_auto_increment (tables s') = orders_auto_increment (tables s) ∧
    order_items_auto_increment (tables s') =
      order_items_auto_increment (tables s) ∧
    carts_auto_increment s' = carts_auto_increment s ∧
    ((existsb (same_line c p) (cart_items (tables s)) = true ∧
      cart_items (tables s') =
        (λ ci, if same_line c p ci then add_to_line q price ci else ci)
          <$> cart_items (tables s) ∧
      cart_items_auto_increment s' = cart_items_auto_increment s) ∨
     (existsb (same_line c p) (cart_items (tables s)) = false ∧
      cart_items (tables s') =
        cart_items (tables s) ++
          [{| ci_id := cart_items_auto_increment s; ci_cart_id := c;
              ci_product_id := p; ci_quantity := q;
              ci_price_at_addition := price |}] ∧
      cart_items_auto_increment s' = cart_items_auto_increment s + 1 ∧
      is_Some (carts (tables s) !! c) ∧ is_Some (products (tables s) !! p))).
Proof.
  unfold upsert_cart_item.
  destruct (sql_int_of_assigned vc) as [c|]; [|done].
  destruct (sql_int_of_assigned vp) as [p|]; [|by destruct (sql_int_of_assigned vq)].
  destruct (sql_int_of_assigned vq) as [q|]; [|done].
  destruct (existsb _ _) eqn:Hex.
  - intros [= <-]. exists c, p, q. simpl. do 11 (split; [done|]). by left.
  - destruct (negb _) eqn:Hfk; [done|]. intros [= <-].
    apply negb_false_iff, andb_true_iff in Hfk as [Hc Hp].
    apply bool_decide_eq_true in Hc, Hp.
    exists c, p, q. simpl. do 11 (split; [done|]). by right.
Qed.

Lemma filter_same_line_updated c p q price c' p' (rows : list cart_item) :
  filter (λ ci, same_line c' p' ci = true)
    ((λ ci, if same_line c p ci then add_to_line q price ci else ci) <$> rows)
  = (λ ci, if same_line c p ci then add_to_line q price ci else ci)
      <$> filter (λ ci, same_line c' p' ci = true) rows.
Proof.
  induction rows as [|ci rows IH]; [done|].
  rewrite fmap_cons, !filter_cons, IH.
  destruct (same_line c p ci) eqn:E;
    repeat case_decide; simpl in *; try congruence; by rewrite ?E.
Qed.


End AddItemEffect.

(** ** Invariants the handlers keep *)

Section Kept.
Context `{Runtime} `{Coercions}.

Lemma post_orders_cart_items body db r db' :
  post_orders body db = (r, db') → cart_items db' = cart_items db.
Proof.
  intros Hp. destruct (decide (res_status r = 201)) as [Hr|Hr].
  - by destruct (post_orders_placed _ _ _ _ Hp Hr)
      as (u & c & crt & _ & _ & _ & _ & _ & _ & _ & _ & _ & _ & _ & _ & -> & _).
  - by rewrite (post_orders_not_placed _ _ _ _ Hp Hr).
Qed.

Lemma post_orders_carts body db r db' :
  post_orders body db = (r, db') →
  carts db' = carts db ∨
  ∃ c, carts db' = alter (set_cart_status "ordered") c (carts db).
Proof.
  intros Hp. destruct (decide (res_status r = 201)) as [Hr|Hr].
  - destruct (post_orders_placed _ _ _ _ Hp Hr)
      as (u & c & crt & _ & _ & _ & _ & _ & _ & _ & _ & _ & _ & _ & _ & _ & _
          & -> & _). right. by exists c.
  - left. by rewrite (post_orders_not_placed _ _ _ _ Hp Hr).
Qed.

Lemma cart_update_item_outcome id quantity s r s' :
  cart_update_item id quantity s = (r, s') →
  s' = s ∨
  ∃ q, sql_int_of_assigned quantity = Some q ∧
       number_le (to_number quantity) (Finite 0) = false ∧
       s' = with_tables
              (with_cart_items
                 ((λ ci, if sql_eq_int (ci_id ci) (JStr id)
                         then set_quantity q ci else ci)
                    <$> cart_items (tables s)) (tables s)) s.
Proof.
  unfold cart_update_item.
  destruct (negb (truthy quantity) || _) eqn:Hb;
    [intros [= <- <-]; by left|].
  apply orb_false_elim in Hb as [_ Hle].
  unfold update_cart_item.
  destruct (filter _ _) as [|ci found].
  { intros [= <- <-]. left. by destruct s. }
  destruct (sql_int_of_assigned quantity) as [q|]; [|intros [= <- <-]; by left].
  cbn [length Nat.eqb]. intros [= <- <-]. right. by exists q.
Qed.

Lemma cart_remove_item_tables id s :
  (cart_remove_item id s).2 =
  with_tables (delete_cart_item (tables s) (JStr id)).2 s.
Proof.
  unfold cart_remove_item, delete_cart_item. by destruct (_ =? _)%nat.
Qed.

Lemma cart_create_outcome user_id s r s' :
  cart_create user_id s = (r, s') →
  s' = s ∨
  ∃ u, sql_int_of_assigned user_id = Some u ∧
       is_Some (users (tables s) !! u) ∧
       select_active_carts_of (tables s) user_id = [] ∧
       r = {| reply_status := 201;
              reply_json := CartId "Cart created successfully"
                                   (carts_auto_increment s) |} ∧
       s' = {| tables :=
                 with_carts (<[carts_auto_increment s :=
                                 {| c_user_id := u; c_status := "active" |}]>
                               (carts (tables s))) (tables s);
               carts_auto_increment := carts_auto_increment s + 1;
               cart_items_auto_increment := cart_items_auto_increment s |}.
Proof.
  unfold cart_create.
  destruct (negb (truthy user_id)); [intros [= <- <-]; by left|].
  destruct (_ =? _)%nat; [intros [= <- <-]; by left|].
  destruct (select_active_carts_of _ _) as [|id rest] eqn:Hsel;
    [|intros [= <- <-]; by left].
  unfold insert_cart.
  destruct (sql_int_of_assigned user_id) as [u|]; [|intros [= <- <-]; by left].
  destruct (bool_decide _) eqn:Hu; [|intros [= <- <-]; by left].
  apply bool_decide_eq_true in Hu. intros [= <- <-]. right. by exists u.
Qed.


End Kept.

Section KeptCarts.
Context `{Runtime} `{Coercions}.

Lemma omap_nil_inv {A B} (f : A → option B) (l : list A) x :
  omap f l = [] → x ∈ l → f x = None.
Proof.
  intros Hnil Hin. destruct (f x) as [y|] eqn:E; [|done].
  assert (y ∈ omap f l) as Hy by (apply list_elem_of_omap; eauto).
  rewrite Hnil in Hy. by apply elem_of_nil in Hy.
Qed.

Lemma select_active_carts_of_nil db v u :
  sql_int_of_param v = Some u →
  select_active_carts_of db v = [] →
  ∀ k c, carts db !! k = Some c → c_user_id c = u → c_status c ≠ "active".
Proof.
  intros Hv Hnil k c Hkc Hu Hst.
  pose proof (omap_nil_inv _ _ (k, c) Hnil) as Hf.
  rewrite elem_of_map_to_list in Hf. specialize (Hf Hkc). simpl in Hf.
  unfold sql_eq_int in Hf. rewrite Hv, Hu, Z.eqb_refl, Hst in Hf. done.
Qed.

Lemma select_active_carts_of_elem db v k :
  k ∈ select_active_carts_of db v →
  ∃ c u, carts db !! k = Some c ∧ sql_int_of_param v = Some u ∧
         c_user_id c = u ∧ c_status c = "active".
Proof.
  unfold select_active_carts_of. rewrite list_elem_of_omap.
  intros ([k' c] & Hin & Hf). apply elem_of_map_to_list in Hin. simpl in Hf.
  destruct (sql_eq_int (c_user_id c) v) eqn:E; [|done].
  destruct (String.eqb (c_status c) "active") eqn:Es; [|done].
  simpl in Hf. injection Hf as <-. unfold sql_eq_int in E.
  destruct (sql_int_of_param v) as [u|]; [|done].
  apply Z.eqb_eq in E. apply String.eqb_eq in Es. by exists c, u.
Qed.

(** X7: a user keeps at most one active cart: creating a cart, for a
    user identifier that is stored as it compares, as a JSON number is,
    makes a new one only when the user has no active cart, the checkout
    makes none and the other handlers do not write [carts]. *)
Theorem one_active_cart_is_kept s :
  one_active_cart (tables s) → counters_ahead s →
  (∀ user_id r s', stored_as_compared user_id →
                   cart_create user_id s = (r, s') →
                   one_active_cart (tables s')) ∧
  (∀ body r s', store_checkout body s = (r, s') →
                one_active_cart (tables s')) ∧
  (∀ body r s', cart_add_item body s = (r, s') →
                carts (tables s') = carts (tables s)) ∧
  (∀ id quantity r s', cart_update_item id quantity s = (r, s') →
                       carts (tables s') = carts (tables s)) ∧
  (∀ id r s', cart_remove_item id s = (r, s') →
              carts (tables s') = carts (tables s)).
Proof.
  intros Hone [Hahead _]. repeat split.
  - intros user_id r s' Hsc Hc.
    destruct (cart_create_outcome _ _ _ _ Hc)
      as [->|(u & Hu & _ & Hnil & _ & ->)]; [done|].
    rewrite Hsc in Hu.
    pose proof (select_active_carts_of_nil _ _ _ Hu Hnil) as Hnone.
    intros k1 k2 c1 c2. simpl. rewrite !lookup_insert.
    destruct (decide (carts_auto_increment s = k1)) as [<-|Hk1],
             (decide (carts_auto_increment s = k2)) as [<-|Hk2]; [done| | |].
    + intros [= <-] Hc2 _ Hst2 Hsame. simpl in Hsame.
      by destruct (Hnone k2 c2).
    + intros Hc1 [= <-] Hst1 _ Hsame. simpl in Hsame.
      by destruct (Hnone k1 c1).
    + apply Hone.
  - intros body r s'. unfold store_checkout.
    destruct (post_orders body (tables s)) as [r0 db'] eqn:Hp.
    intros [= <- <-]. simpl.
    destruct (post_orders_carts _ _ _ _ Hp) as [Hcs|[c Hcs]];
      intros k1 k2 c1 c2; rewrite Hcs; [apply Hone|].
    rewrite !lookup_alter.
    destruct (decide (c = k1)) as [<-|Hk1].
    { destruct (carts (tables s) !! c); [|done]. by intros [= <-]. }
    destruct (decide (c = k2)) as [<-|Hk2].
    { destruct (carts (tables s) !! c); [|done]. by intros _ [= <-]. }
    apply Hone.
  - intros body r s' Hadd.
    destruct (decide (reply_status r = 201)) as [Hr|Hr];
      [|by rewrite (cart_add_item_refused _ _ _ _ Hadd Hr)].
    destruct (cart_add_item_added _ _ _ _ Hadd Hr)
      as (c & crt & p & prod & _ & _ & _ & _ & _ & _ & _ & _ & _ & _ & Hup & _).
    by destruct (upsert_cart_item_rows _ _ _ _ _ _ Hup)
      as (c0 & p0 & q0 & _ & _ & _ & _ & _ & -> & _).
  - intros id quantity r s' Hupd.
    by destruct (cart_update_item_outcome _ _ _ _ _ Hupd)
      as [->|(q & _ & _ & ->)].
  - intros id r s' Hrem.
    assert (s' = (cart_remove_item id s).2) as -> by (by rewrite Hrem).
    by rewrite cart_remove_item_tables.
Qed.

End KeptCarts.

(** ** The cart service and the checkout together *)

Section WithCheckout.
Context `{Runtime} `{Coercions}.

(** What a checkout that went through leaves in the store of the cart
    service. *)
Lemma store_checkout_placed body s r s1 :
  store_checkout body s = (r, s1) → placed r →
  ∃ u c crt,
    truthy (user_id body) = true ∧ user_id body = JNum u ∧
    is_Some (users (tables s) !! u) ∧
    sql_int_of_param (cart_id body) = Some c ∧
    carts (tables s) !! c = Some crt ∧ c_status crt = "active" ∧
    c_user_id crt = u ∧
    users (tables s1) = users (tables s) ∧
    products (tables s1) =
      decrement_all (select_cart_items (tables s) (cart_id body))
                    (products (tables s)) ∧
    cart_items (tables s1) = cart_items (tables s) ∧
    carts (tables s1) = alter (set_cart_status "ordered") c (carts (tables s)) ∧
    carts_auto_increment s1 = carts_auto_increment s ∧
    cart_items_auto_increment s1 = cart_items_auto_increment s.
Proof.
  unfold store_checkout.
  destruct (post_orders body (tables s)) as [r0 db'] eqn:Hp.
  intros [= <- <-] Hr.
  destruct (post_orders_placed _ _ _ _ Hp Hr)
    as (u & c & crt & Hu & Husr & _ & Hc & Hcrt & Hst & Hown & _ & _ & _ & _
        & Hus & Hcis & Hps & Hcs & _).
  assert (truthy (user_id body) = true) as Htu.
  { destruct (post_orders_outcome _ _ _ _ Hp) as [[Hv _]|[(Hs & _)|Hok]].
    - apply validation_failure_status in Hv. unfold placed in Hr. lia.
    - unfold placed in Hr. lia.
    - by destruct Hok as ((Htu & _) & _). }
  exists u, c, crt. simpl. done.
Qed.

(** X8: after a checkout the user has no active cart any more, and
    [POST /cart/create] makes a new one, under a new identifier: the cart
    that was checked out is not handed out again. *)
Theorem checked_out_user_gets_new_cart body s r s1 :
  one_active_cart (tables s) → counters_ahead s →
  store_checkout body s = (r, s1) → placed r →
  ∃ s2,
    cart_create (user_id body) s1 =
      ({| reply_status := 201;
          reply_json := CartId "Cart created successfully"
                               (carts_auto_increment s) |}, s2) ∧
    sql_int_of_param (cart_id body) ≠ Some (carts_auto_increment s) ∧
    (∃ c, carts (tables s2) !! carts_auto_increment s = Some c ∧
          c_status c = "active" ∧ user_id body = JNum (c_user_id c)) ∧
    (∃ c crt, sql_int_of_param (cart_id body) = Some c ∧
              carts (tables s2) !! c = Some crt ∧ c_status crt = "ordered").
Proof.
  intros Hone [Hahead _] Hco Hr.
  destruct (store_checkout_placed _ _ _ _ Hco Hr)
    as (u & c & crt & Htu & Hu & Husr & Hc & Hcrt & Hst & Hown & Hus & _ & _
        & Hcs & Hcai & _).
  assert (c < carts_auto_increment s) as Hlt by (by eapply Hahead).
  assert (select_active_carts_of (tables s1) (user_id body) = []) as Hnone.
  { destruct (select_active_carts_of _ _) as [|k rest] eqn:Hsel; [done|].
    assert (k ∈ select_active_carts_of (tables s1) (user_id body)) as Hin
      by (rewrite Hsel; left).
    apply select_active_carts_of_elem in Hin
      as (c' & u' & Hkc & Hu' & Hown' & Hst').
    rewrite Hu in Hu'. injection Hu' as <-.
    rewrite Hcs, lookup_alter in Hkc. destruct (decide (c = k)) as [<-|Hne].
    - rewrite Hcrt in Hkc. by injection Hkc as <-.
    - destruct Hne. eapply (Hone c k crt c'); try done. congruence. }
  unfold cart_create. rewrite Htu. cbn [negb].
  unfold select_user. rewrite Hu. cbn [sql_int_of_param]. rewrite Hus.
  destruct Husr as [usr Husr]. rewrite Husr. cbn [length Nat.eqb].
  rewrite <- Hu, Hnone. unfold insert_cart. rewrite Hu.
  cbn [sql_int_of_assigned]. rewrite Hus, Husr.
  rewrite bool_decide_eq_true_2 by eauto. rewrite Hcai.
  eexists. split; [done|]. split; [rewrite Hc; intros [= ->]; lia|].
  simpl. split.
  - eexists. rewrite lookup_insert_eq. done.
  - exists c. eexists. split; [done|].
    rewrite lookup_insert_ne by lia.
    rewrite Hcs, lookup_alter, decide_True, Hcrt by done. done.
Qed.

(** X9: a cart that was checked out takes no more items:
    [POST /cart/items] for it is answered with 400 [Cart is not active] and
    writes nothing. *)
Theorem checked_out_cart_takes_no_item body s r s1 item :
  store_checkout body s = (r, s1) → placed r →
  sql_int_of_param (ai_cart_id item) = sql_int_of_param (cart_id body) →
  truthy (ai_cart_id item) = true → truthy (ai_product_id item) = true →
  truthy (ai_quantity item) = true →
  number_le (to_number (ai_quantity item)) (Finite 0) = false →
  cart_add_item item s1 =
    ({| reply_status := 400; reply_json := CartError "Cart is not active" |},
     s1).
Proof.
  intros Hco Hr Hsame Hc Hp Hq Hle.
  destruct (store_checkout_placed _ _ _ _ Hco Hr)
    as (u & c & crt & _ & _ & _ & Hck & Hcrt & _ & _ & _ & _ & _ & Hcs & _).
  unfold cart_add_item. cbn zeta. rewrite Hc, Hp, Hq, Hle. cbn [negb orb].
  unfold select_cart.
  rewrite Hsame, Hck, Hcs, lookup_alter, decide_True, Hcrt by done. done.
Qed.


End WithCheckout.

Section MoreWithCheckout.
Context `{Runtime} `{Coercions}.

Lemma select_active_carts_of_inserted db v u id :
  sql_int_of_param v = Some u → carts db !! id = None →
  select_active_carts_of db v = [] →
  select_active_carts_of
    (with_carts (<[id := {| c_user_id := u; c_status := "active" |}]>
                   (carts db)) db) v = [id].
Proof.
  intros Hv Hfresh Hnil. unfold select_active_carts_of in *.
  cbn [carts with_carts]. apply Permutation_singleton_r.
  rewrite (map_to_list_insert _ _ _ Hfresh). cbn [omap list_omap fst snd].
  unfold sql_eq_int at 1. rewrite Hv. cbn [c_user_id c_status].
  rewrite Z.eqb_refl. cbn [andb String.eqb Ascii.eqb Bool.eqb].
  fold (omap (λ kc : Z * cart,
                if sql_eq_int (c_user_id kc.2) v
                   && String.eqb (c_status kc.2) "active"
                then Some kc.1 else None) (map_to_list (carts db))).
  by rewrite Hnil.
Qed.

(** X11: [POST /cart/create], for a user identifier that is stored as it
    compares, as a JSON number is, hands out an active cart of the user
    and is idempotent: asked again, it answers 200 with the same cart and
    writes nothing. *)
Theorem cart_create_is_idempotent user_id s r s' message id :
  stored_as_compared user_id → counters_ahead s →
  cart_create user_id s = (r, s') →
  reply_json r = CartId message id →
  (∃ c, carts (tables s') !! id = Some c ∧ c_status c = "active" ∧
        sql_int_of_param user_id = Some (c_user_id c)) ∧
  cart_create user_id s' =
    ({| reply_status := 200;
        reply_json := CartId "Active cart already exists" id |}, s').
Proof.
  intros Hsc [Hahead _] Hc Hj. unfold cart_create in Hc |- *.
  destruct (negb (truthy user_id)) eqn:Ht;
    [injection Hc as <- <-; simpl in Hj; done|].
  destruct (length (select_user (tables s) user_id) =? 0)%nat eqn:Hu;
    [injection Hc as <- <-; simpl in Hj; done|].
  destruct (select_active_carts_of (tables s) user_id) as [|k rest] eqn:Hsel.
  - unfold insert_cart in Hc. rewrite Hsc in Hc.
    destruct (sql_int_of_param user_id) as [u|] eqn:Hv;
      [|injection Hc as <- <-; simpl in Hj; done].
    destruct (bool_decide _) eqn:Husr;
      [|injection Hc as <- <-; simpl in Hj; done].
    injection Hc as <- <-. simpl in Hj. injection Hj as _ <-.
    assert (carts (tables s) !! carts_auto_increment s = None) as Hfresh.
    { destruct (carts (tables s) !! carts_auto_increment s) as [c|] eqn:E;
        [|done]. specialize (Hahead _ _ E). lia. }
    cbn [tables]. split.
    + eexists. cbn [carts with_carts]. rewrite lookup_insert_eq. done.
    + assert (select_user
                (with_carts (<[carts_auto_increment s :=
                                 {| c_user_id := u; c_status := "active" |}]>
                               (carts (tables s))) (tables s)) user_id
              = select_user (tables s) user_id) as -> by done.
      rewrite Hu.
      by rewrite (select_active_carts_of_inserted _ _ u _ Hv Hfresh Hsel).
  - injection Hc as <- <-. simpl in Hj. injection Hj as _ <-.
    rewrite Hu, Hsel. split; [|done].
    assert (k ∈ select_active_carts_of (tables s) user_id) as Hin
      by (rewrite Hsel; left).
    apply select_active_carts_of_elem in Hin as (c & u & Hkc & Hv & Hown & Hst).
    exists c. rewrite Hv, Hown. done.
Qed.


Lemma omap_fmap_ext {A B C D} (f : A → option B) (g : A → option C)
    (h : B → D) (k : C → D) (l : list A) :
  (∀ x, h <$> f x = k <$> g x) → h <$> omap f l = k <$> omap g l.
Proof.
  intros Hfg. induction l as [|x l IH]; [done|]. simpl.
  specialize (Hfg x).
  destruct (f x), (g x); simpl in *; try discriminate; [|exact IH].
  injection Hfg as Hfg. f_equal; [exact Hfg|exact IH].
Qed.

Lemma view_items_subtotals db v v' :
  sql_int_of_param v = sql_int_of_param v' →
  cv_subtotal <$> select_cart_view_items db v =
  cl_subtotal <$> select_cart_items db v'.
Proof.
  intros Hv. unfold select_cart_view_items, select_cart_items.
  apply omap_fmap_ext. intros ci.
  assert (sql_eq_int (ci_cart_id ci) v = sql_eq_int (ci_cart_id ci) v') as ->
    by (unfold sql_eq_int; by rewrite Hv).
  destruct (sql_eq_int (ci_cart_id ci) v'); [|done].
  unfold view_product, join_product.
  by destruct (products db !! ci_product_id ci).
Qed.

Lemma fold_subtotals {A} (f : A → Z) (l : list A) acc :
  fold_left (λ sum item, js_add sum (parseFloat (f item))) l acc =
  fold_left (λ sum c, js_add sum (parseFloat c)) (f <$> l) acc.
Proof. revert acc. induction l as [|x l IH]; intros acc; simpl; [done|]. apply IH. Qed.

(** X13: the cart shows what the order will charge: for a cart whose
    checkout goes through, the [total_amount] of [GET /cart/:cart_id],
    asked before the checkout, is the [total_amount] of the order placed,
    and its [item_count] is the number of order lines. *)
Theorem cart_view_shows_the_order_total body db r db' cart :
  post_orders body db = (r, db') → placed r →
  sql_int_of_param (JStr cart) = sql_int_of_param (cart_id body) →
  ∃ c crt username items oj,
    cart_view cart db =
      {| reply_status := 200;
         reply_json :=
           CartView c crt username items
             (length (select_cart_items db (cart_id body)))
             (oj_total_amount oj) |} ∧
    res_json r = JsonOrderPlaced "Order placed successfully" oj ∧
    length (oj_items oj) = length items.
Proof.
  intros Hp Hr Hsame.
  destruct (post_orders_placed _ _ _ _ Hp Hr)
    as (u & c & crt & Hu & [usr Husr] & _ & Hc & Hcrt & _ & Hown & _ & _ & _
        & -> & _).
  pose proof (view_items_subtotals db (JStr cart) (cart_id body) Hsame) as Hsub.
  exists c, crt, (u_username usr),
         (select_cart_view_items db (JStr cart)).
  eexists. split; [|split; [reflexivity|]].
  - unfold cart_view, select_cart_with_user.
    rewrite Hsame, Hc, Hcrt, Hown, Husr. cbn [oj_total_amount].
    unfold view_total, totalAmount.
    rewrite (fold_subtotals cv_subtotal), (fold_subtotals cl_subtotal), Hsub.
    do 3 f_equal.
    by rewrite <- (length_fmap cv_subtotal), Hsub, length_fmap.
  - cbn [oj_items]. rewrite length_fmap.
    by rewrite <- (length_fmap cl_subtotal), <- Hsub, length_fmap.
Qed.

(** X14: a removed item is gone: [DELETE /cart/items/:item_id] answers 200
    when the identifier finds a row, leaves the rows it does not find as
    they were, in order, and answers 404, writing nothing, when asked
    again. *)
Theorem removed_item_is_gone id s :
  Exists (λ ci, sql_eq_int (ci_id ci) (JStr id) = true) (cart_items (tables s)) →
  ∃ s',
    cart_remove_item id s =
      ({| reply_status := 200;
          reply_json := CartMessage "Item removed from cart successfully" |},
       s') ∧
    cart_items (tables s') =
      filter (λ ci, sql_eq_int (ci_id ci) (JStr id) ≠ true)
             (cart_items (tables s)) ∧
    products (tables s') = products (tables s) ∧
    cart_remove_item id s' =
      ({| reply_status := 404; reply_json := CartError "Cart item not found" |},
       s').
Proof.
  intros Hex. unfold cart_remove_item at 1. unfold delete_cart_item.
  destruct (Nat.eqb_spec
              (length (filter (λ ci, sql_eq_int (ci_id ci) (JStr id) = true)
                         (cart_items (tables s)))) 0) as [E|_].
  { by apply length_filter_0 in E. }
  eexists. split; [done|]. cbn [tables with_tables cart_items with_cart_items
    products]. split; [done|]. split; [done|].
  unfold cart_remove_item, delete_cart_item.
  cbn [tables with_tables cart_items with_cart_items].
  rewrite (filter_none (λ ci, sql_eq_int (ci_id ci) (JStr id) = true)).
  - cbn [length Nat.eqb]. rewrite filter_all; [by destruct s as [[]]|].
    apply Forall_forall. intros ci Hin.
    by apply list_elem_of_filter in Hin as [? _].
  - apply Forall_forall. intros ci Hin.
    by apply list_elem_of_filter in Hin as [? _].
Qed.


End MoreWithCheckout.

Section DeleteProduct.
Context `{Runtime} `{Coercions}.

Lemma existsb_product_false k (l : list order_item) :
  existsb (λ oi, oi_product_id oi =? k) l = false ↔
  Forall (λ oi, oi_product_id oi ≠ k) l.
Proof.
  induction l as [|oi l IH]; simpl; [by split; [constructor|]|].
  rewrite orb_false_iff, IH, Forall_cons, Z.eqb_neq. done.
Qed.

Lemma select_cart_items_without db k v :
  select_cart_items
    {| users := users db; products := delete k (products db);
       carts := carts db;
       cart_items := filter (λ ci, ci_product_id ci ≠ k) (cart_items db);
       orders := orders db;
       orders_auto_increment := orders_auto_increment db;
       order_items := order_items db;
       order_items_auto_increment := order_items_auto_increment db |} v =
  filter (λ item, cl_product_id item ≠ k) (select_cart_items db v).
Proof.
  unfold select_cart_items. cbn [cart_items].
  induction (cart_items db) as [|ci l IH]; [done|].
  rewrite filter_cons. cbn [omap list_omap].
  fold (omap (λ ci, if sql_eq_int (ci_cart_id ci) v
                    then join_product db ci else None) l).
  unfold join_product at 2.
  destruct (decide (ci_product_id ci ≠ k)) as [Hne|Heq].
  - cbn [omap list_omap]. unfold join_product at 1. cbn [products].
    rewrite lookup_delete_ne by done.
    destruct (sql_eq_int (ci_cart_id ci) v); [|exact IH].
    destruct (products db !! ci_product_id ci); simpl; [|exact IH].
    rewrite filter_cons. cbn [cl_product_id].
    rewrite decide_True by done. f_equal. exact IH.
  - destruct (sql_eq_int (ci_cart_id ci) v); [|exact IH].
    destruct (products db !! ci_product_id ci); simpl; [|exact IH].
    rewrite filter_cons. cbn [cl_product_id].
    rewrite decide_False by done. exact IH.
Qed.

(** X16: a product that was ordered cannot be deleted: after a checkout
    went through, [DELETE /products/:id] for the product of any of its
    lines answers 500, since the foreign key of [order_items] refuses the
    statement, and the tables stay as they are. *)
Theorem ordered_product_is_not_deleted body db r db' item id :
  post_orders body db = (r, db') → placed r →
  item ∈ select_cart_items db (cart_id body) →
  mysql_int_of_string id = Some (cl_product_id item) →
  ∃ details,
    product_delete id db' =
      ({| reply_status := 500;
          reply_json := ProductFailure "Failed to delete product" details |},
       db').
Proof.
  intros Hp Hr Hin Hid.
  destruct (post_orders_placed _ _ _ _ Hp Hr)
    as (u & c & crt & _ & _ & _ & _ & _ & _ & _ & _ & _ & _ & _ & _ & _
        & Hps & _ & _ & _ & Hois & _).
  unfold product_delete, delete_product. cbn [sql_int_of_param].
  rewrite Hid, Hps, lookup_decrement_all.
  pose proof Hin as Hin'.
  apply elem_of_select_cart_items in Hin' as (ci & p & _ & _ & Hprod & ->).
  cbn [cl_product_id]. rewrite Hprod. cbn [fmap option_fmap option_map].
  destruct (existsb _ (order_items db')) eqn:Hex; [by eexists|].
  apply existsb_product_false in Hex. rewrite Hois in Hex.
  apply Forall_app in Hex as [_ Hex]. rewrite Forall_forall in Hex.
  apply list_elem_of_lookup in Hin as [i Hi].
  destruct (Hex (new_order_item db i
                   {| cl_product_id := ci_product_id ci;
                      cl_quantity := ci_quantity ci;
                      cl_price_at_addition := ci_price_at_addition ci;
                      cl_product_name := p_name p;
                      cl_stock_quantity := p_stock_quantity p;
                      cl_subtotal := ci_quantity ci * ci_price_at_addition ci |})).
  - apply list_elem_of_lookup. exists i. rewrite list_lookup_imap, Hi. done.
  - done.
Qed.

(** X17: deleting a product that no order line refers to answers 200,
    removes the product and, by the cascade of the foreign key of
    [cart_items], exactly the cart lines for it: every cart then lists its
    other lines as before.  Deleting it again answers 404. *)
Theorem deleted_product_leaves_the_carts id k db :
  mysql_int_of_string id = Some k → is_Some (products db !! k) →
  Forall (λ oi, oi_product_id oi ≠ k) (order_items db) →
  ∃ db',
    product_delete id db =
      ({| reply_status := 200;
          reply_json := ProductMessage "Product deleted successfully" |}, db') ∧
    products db' = delete k (products db) ∧
    cart_items db' = filter (λ ci, ci_product_id ci ≠ k) (cart_items db) ∧
    (∀ cart, select_cart_items db' cart =
             filter (λ item, cl_product_id item ≠ k)
                    (select_cart_items db cart)) ∧
    product_delete id db' =
      ({| reply_status := 404;
          reply_json := ProductError "Product not found" |}, db').
Proof.
  intros Hid [p Hp] Hno. apply existsb_product_false in Hno.
  unfold product_delete at 1. unfold delete_product.
  cbn [sql_int_of_param]. rewrite Hid, Hp, Hno. cbn [Nat.eqb].
  eexists. split; [done|]. cbn [products cart_items].
  split; [done|]. split; [done|]. split.
  - intros cart. apply select_cart_items_without.
  - unfold product_delete, delete_product. cbn [sql_int_of_param products].
    by rewrite Hid, lookup_delete_eq.
Qed.

End DeleteProduct.

Section References.
Context `{Runtime} `{Coercions}.

Lemma references_add_item body s :
  references_hold (tables s) →
  references_hold (tables (cart_add_item body s).2).
Proof.
  intros Href. destruct (cart_add_item body s) as [r s'] eqn:Hadd.
  cbn [snd].
  destruct (decide (reply_status r = 201)) as [Hr|Hr];
    [|by rewrite (cart_add_item_refused _ _ _ _ Hadd Hr)].
  destruct (cart_add_item_added _ _ _ _ Hadd Hr)
    as (c & crt & p & prod & _ & _ & _ & _ & _ & _ & _ & _ & _ & _
        & Hup & _).
  destruct (upsert_cart_item_rows _ _ _ _ _ _ Hup)
    as (c0 & p0 & q0 & _ & _ & _ & E1 & E2 & E3 & E4 & E5 & _ & _ & _
        & Hrows).
  destruct Href as (R1 & R2 & R3 & R4).
  unfold references_hold. rewrite E1, E2, E3, E4, E5.
  split; [done|]. split; [|done].
  destruct Hrows as [(_ & -> & _) | (_ & -> & _ & Hc & Hp)].
  - apply Forall_fmap. eapply Forall_impl; [exact R2|].
    intros ci Hci. simpl in *. by destruct (same_line c0 p0 ci).
  - apply Forall_app. split; [done|]. by constructor; [|constructor].
Qed.

Lemma references_update_item id quantity s :
  references_hold (tables s) →
  references_hold (tables (cart_update_item id quantity s).2).
Proof.
  intros Href. destruct (cart_update_item id quantity s) as [r s'] eqn:Hupd.
  cbn [snd].
  destruct (cart_update_item_outcome _ _ _ _ _ Hupd) as [->|(q & _ & _ & ->)];
    [done|].
  destruct Href as (R1 & R2 & R3 & R4). unfold references_hold.
  destruct s as [db cai ciai]. destruct db. simpl in *.
  split; [done|]. split; [|done].
  apply Forall_fmap. eapply Forall_impl; [exact R2|].
  intros ci Hci. simpl in *. by destruct (sql_eq_int (ci_id ci) (JStr id)).
Qed.

Lemma references_remove_item id s :
  references_hold (tables s) →
  references_hold (tables (cart_remove_item id s).2).
Proof.
  intros (R1 & R2 & R3 & R4). rewrite cart_remove_item_tables.
  unfold references_hold. destruct s as [db cai ciai]. destruct db. simpl in *.
  split; [done|]. split; [|done].
  apply Forall_forall. intros ci Hin.
  apply list_elem_of_filter in Hin as [_ Hin].
  rewrite Forall_forall in R2. by apply R2.
Qed.

Lemma references_create user_id s :
  references_hold (tables s) →
  references_hold (tables (cart_create user_id s).2).
Proof.
  intros Href. destruct (cart_create user_id s) as [r s'] eqn:Hc. cbn [snd].
  destruct (cart_create_outcome _ _ _ _ Hc)
    as [->|(u & _ & Hu & _ & _ & ->)]; [done|].
  destruct Href as (R1 & R2 & R3 & R4). unfold references_hold.
  destruct s as [db cai ciai]. destruct db. simpl in *.
  split; [|split; [|split; [|done]]].
  - intros k c [[_ <-]|[_ Hk]]%lookup_insert_Some; [done|by eapply R1].
  - eapply Forall_impl; [exact R2|]. intros ci [Hc1 Hc2]. simpl in *.
    split; [|done]. rewrite lookup_insert_is_Some.
    destruct (decide (cai = ci_cart_id ci)); [by left|by right].
  - eapply Forall_impl; [exact R3|]. intros o [Ho1 Ho2]. simpl in *.
    split; [done|]. rewrite lookup_insert_is_Some.
    destruct (decide (cai = o_cart_id o)); [by left|by right].
Qed.

Lemma references_post_orders body db :
  references_hold db → references_hold (post_orders body db).2.
Proof.
  intros Href. destruct (post_orders body db) as [r db'] eqn:Hp. cbn [snd].
  destruct (decide (placed r)) as [Hr|Hr];
    [|by rewrite (post_orders_not_placed _ _ _ _ Hp Hr)].
  destruct (post_orders_placed _ _ _ _ Hp Hr)
    as (u & c & crt & _ & Husr & _ & Hc & Hcrt & _ & _ & _ & _ & _ & _
        & Hus & Hcis & Hps & Hcs & Hos & _ & Hois & _).
  destruct Href as (R1 & R2 & R3 & R4). unfold references_hold.
  rewrite Hus, Hcis, Hps, Hcs, Hos, Hois.
  assert (∀ k, is_Some (carts db !! k) →
               is_Some (alter (set_cart_status "ordered") c (carts db) !! k))
    as Hkeep.
  { intros k [x Hx]. rewrite lookup_alter.
    destruct (decide (c = k)) as [->|]; rewrite Hx; by eexists. }
  assert (∀ k, is_Some (products db !! k) →
               is_Some (decrement_all (select_cart_items db (cart_id body))
                                      (products db) !! k)) as Hkeep'.
  { intros k [x Hx]. rewrite lookup_decrement_all, Hx. by eexists. }
  split; [|split; [|split]].
  - intros k c0 Hk. rewrite lookup_alter in Hk.
    destruct (decide (c = k)) as [<-|Hne].
    + rewrite Hcrt in Hk. injection Hk as <-. exact (R1 _ _ Hcrt).
    + by eapply R1.
  - eapply Forall_impl; [exact R2|]. intros ci [H1 H2]. simpl in *. auto.
  - apply Forall_app. split.
    + eapply Forall_impl; [exact R3|]. intros o [H1 H2]. simpl in *. auto.
    + constructor; [|constructor]. simpl. split; [done|].
      apply Hkeep. by eexists.
  - apply Forall_app. split.
    + eapply Forall_impl; [exact R4|]. intros oi [H1 H2]. simpl in *.
      split; [|auto]. apply Exists_app. by left.
    + apply Forall_forall. intros oi Hin.
      apply list_elem_of_lookup in Hin as [i Hi].
      rewrite list_lookup_imap in Hi.
      destruct (select_cart_items db (cart_id body) !! i) as [item|] eqn:Hitem;
        [|done]. injection Hi as <-. simpl. split.
      * apply Exists_app. right. by constructor.
      * apply Hkeep'.
        assert (item ∈ select_cart_items db (cart_id body)) as Hin
          by (by eapply list_elem_of_lookup_2).
        apply elem_of_select_cart_items in Hin as (ci & p & _ & _ & Hprod & ->).
        by eexists.
Qed.

Lemma references_status id status db :
  references_hold db → references_hold (put_order_status id status db).2.
Proof.
  intros (R1 & R2 & R3 & R4). unfold put_order_status.
  destruct (negb _); [done|].
  destruct status as [| | | |s]; try done.
  unfold update_order_status. destruct (_ =? _)%nat; cbn [snd];
    unfold references_hold; simpl;
    (split; [done|]; split; [done|]; split;
     [apply Forall_fmap; eapply Forall_impl; [exact R3|];
      intros o Ho; simpl in *; by destruct (sql_eq_int (o_id o) (JStr id))
     |eapply Forall_impl; [exact R4|];
      intros oi [Hex Hp]; simpl in *; split; [|done];
      apply Exists_fmap; eapply Exists_impl; [exact Hex|];
      intros o Ho; simpl in *; by destruct (sql_eq_int (o_id o) (JStr id))]).
Qed.

Lemma references_product_delete id db :
  references_hold db → references_hold (product_delete id db).2.
Proof.
  intros (R1 & R2 & R3 & R4). unfold product_delete, delete_product.
  destruct (sql_int_of_param (JStr id)) as [k|]; [|done].
  destruct (products db !! k) as [p|]; [|done].
  destruct (existsb _ _) eqn:Hex; [done|].
  apply existsb_product_false in Hex.
  cbn [Nat.eqb snd]. unfold references_hold. simpl.
  split; [done|]. split; [|split; [done|]].
  - apply Forall_forall. intros ci [Hne Hin]%list_elem_of_filter.
    rewrite Forall_forall in R2. destruct (R2 _ Hin) as [H1 H2].
    split; [done|]. by rewrite lookup_delete_ne.
  - rewrite Forall_forall in R4, Hex |- *. intros oi Hin.
    destruct (R4 _ Hin) as [H1 H2]. split; [done|].
    rewrite lookup_delete_ne; [done|]. intros ->. by eapply Hex.
Qed.

(** X18: the handlers keep the foreign keys of the schema: when every
    cart has its user, every cart line its cart and product, every order
    its user and cart and every order line its order and product, this
    still holds after any request to the cart handlers, the checkout, the
    status update and the deletion of a product, whatever the answer. *)
Theorem foreign_keys_are_kept s :
  references_hold (tables s) →
  (∀ user_id, references_hold (tables (cart_create user_id s).2)) ∧
  (∀ body, references_hold (tables (cart_add_item body s).2)) ∧
  (∀ id quantity,
     references_hold (tables (cart_update_item id quantity s).2)) ∧
  (∀ id, references_hold (tables (cart_remove_item id s).2)) ∧
  (∀ body, references_hold (tables (store_checkout body s).2)) ∧
  (∀ id status, references_hold (put_order_status id status (tables s)).2) ∧
  (∀ id, references_hold (product_delete id (tables s)).2).
Proof.
  intros Href. split; [|split; [|split; [|split; [|split; [|split]]]]].
  - intros. by apply references_create.
  - intros. by apply references_add_item.
  - intros. by apply references_update_item.
  - intros. by apply references_remove_item.
  - intros body. unfold store_checkout.
    pose proof (references_post_orders body _ Href) as Hp.
    destruct (post_orders body (tables s)) as [r db']. exact Hp.
  - intros. by apply references_status.
  - intros. by apply references_product_delete.
Qed.

End References.

Section CartFrame.
Context `{Runtime} `{Coercions}.

Lemma get_order_same id db db' :
  users db' = users db → orders db' = orders db →
  order_items db' = order_items db →
  get_order id db' = get_order id db.
Proof.
  intros Hu Ho Hoi.
  unfold get_order, select_order, select_order_items. by rewrite Hu, Ho, Hoi.
Qed.

(** X19: the cart service writes [carts] and [cart_items] only: whatever
    the request and the answer, creating a cart, adding, changing and
    removing an item leave the users, the products with their stock, the
    orders and the order lines as they were, so that [GET /orders/:id]
    answers as before. *)
Theorem cart_requests_leave_the_orders s :
  let kept (s' : store) :=
    users (tables s') = users (tables s) ∧
    products (tables s') = products (tables s) ∧
    orders (tables s') = orders (tables s) ∧
    order_items (tables s') = order_items (tables s) ∧
    ∀ id, get_order id (tables s') = get_order id (tables s) in
  (∀ user_id, kept (cart_create user_id s).2) ∧
  (∀ body, kept (cart_add_item body s).2) ∧
  (∀ id quantity, kept (cart_update_item id quantity s).2) ∧
  (∀ id, kept (cart_remove_item id s).2).
Proof.
  intros kept.
  assert (∀ s', users (tables s') = users (tables s) →
                products (tables s') = products (tables s) →
                orders (tables s') = orders (tables s) →
                order_items (tables s') = order_items (tables s) →
                kept s') as Hkept.
  { intros s' Hu Hp Ho Hoi. unfold kept. do 4 (split; [done|]).
    intros id. by apply get_order_same. }
  split; [|split; [|split]].
  - intros user_id. destruct (cart_create user_id s) as [r s'] eqn:Hc.
    cbn [snd].
    destruct (cart_create_outcome _ _ _ _ Hc) as [->|(u & _ & _ & _ & _ & ->)];
      by apply Hkept.
  - intros body. destruct (cart_add_item body s) as [r s'] eqn:Hadd.
    cbn [snd].
    destruct (decide (reply_status r = 201)) as [Hr|Hr];
      [|rewrite (cart_add_item_refused _ _ _ _ Hadd Hr); by apply Hkept].
    destruct (cart_add_item_added _ _ _ _ Hadd Hr)
      as (c & crt & p & prod & _ & _ & _ & _ & _ & _ & _ & _ & _ & _
          & Hup & _).
    destruct (upsert_cart_item_rows _ _ _ _ _ _ Hup)
      as (c0 & p0 & q0 & _ & _ & _ & E1 & E2 & _ & E4 & E5 & _).
    by apply Hkept.
  - intros id quantity.
    destruct (cart_update_item id quantity s) as [r s'] eqn:Hupd. cbn [snd].
    destruct (cart_update_item_outcome _ _ _ _ _ Hupd) as [->|(q & _ & _ & ->)];
      by apply Hkept.
  - intros id. rewrite cart_remove_item_tables. by apply Hkept.
Qed.

End CartFrame.

(** ** The further properties on the sample stores *)

Lemma bazaar_one_active_cart : one_active_cart (tables bazaar).
Proof.
  intros k1 k2 c1 c2 H1 H2 A1 A2 _.
  unfold bazaar in H1, H2. cbn [tables carts] in H1, H2.
  apply lookup_insert_Some in H1 as [[<- <-]|[_ H1]];
    apply lookup_insert_Some in H2 as [[<- <-]|[_ H2]]; try done.
  - apply lookup_singleton_Some in H2 as [<- <-]. done.
  - apply lookup_singleton_Some in H1 as [<- <-]. done.
  - apply lookup_singleton_Some in H1 as [<- <-]. done.
Qed.

Lemma bazaar_counters_ahead : counters_ahead bazaar.
Proof.
  split.
  - intros k c Hk. unfold bazaar in Hk |- *.
    cbn [tables carts carts_auto_increment] in Hk |- *.
    apply lookup_insert_Some in Hk as [[<- <-]|[_ Hk]]; [done|].
    apply lookup_singleton_Some in Hk as [<- <-]. done.
  - repeat constructor.
Qed.

Lemma bazaar_placed_100 :
  placed (store_checkout (checkout 1 100) bazaar).1.
Proof. by vm_compute. Qed.

Lemma shop_order_ids_ahead : order_ids_ahead shop.
Proof. split; repeat constructor. Qed.

Lemma shop_quantities_positive : quantities_positive shop.
Proof. repeat constructor. Qed.

Lemma shop_references_hold : references_hold shop.
Proof.
  split; [|split; [|split]].
  - intros k c Hk. assert (c_user_id c = 1 ∨ c_user_id c = 2) as [-> | ->].
    { unfold shop in Hk. cbn [carts] in Hk.
      repeat (apply lookup_insert_Some in Hk as [[<- <-]|[_ Hk]];
              [simpl; tauto|]).
      apply lookup_singleton_Some in Hk as [<- <-]. simpl. tauto. }
    all: vm_compute; by eexists.
  - repeat (apply Forall_cons; split; [split; vm_compute; by eexists|]).
    constructor.
  - repeat (apply Forall_cons; split; [split; vm_compute; by eexists|]).
    constructor.
  - apply Forall_cons. split; [|constructor].
    split; [by apply Exists_cons_hd|vm_compute; by eexists].
Qed.


Lemma status_update_is_read_back_witness :
  includes validStatuses (JStr "shipped") = true ∧
  ∃ o username email items n,
    get_order "1" shop =
      {| reply_status := 200;
         reply_json := OrderView o username email items n |} ∧
    get_order "1" (put_order_status "1" (JStr "shipped") shop).2 =
      {| reply_status := 200;
         reply_json :=
           OrderView (set_order_status "shipped" o) username email items n |}.
Proof.
  split; [reflexivity|].
  assert (∃ o username email items n,
            get_order "1" shop =
              {| reply_status := 200;
                 reply_json := OrderView o username email items n |})
    as (o & username & email & items & n & Hget)
    by (eexists _, _, _, _, _; by vm_compute).
  exists o, username, email, items, n. split; [exact Hget|].
  pose proof (status_update_is_read_back "1" "shipped" shop _ _ o username
                email items n eq_refl (surjective_pairing _) Hget) as Hg.
  destruct Hg as (_ & Hread & _). exact Hread.
Defined.

Lemma status_updates_last_wins_witness :
  includes validStatuses (JStr "shipped") = true ∧
  put_order_status "1" (JStr "shipped")
    (put_order_status "1" (JStr "cancelled") shop).2 =
  put_order_status "1" (JStr "shipped") shop.
Proof.
  split; [reflexivity|].
  exact (status_updates_last_wins "1" (JStr "cancelled") "shipped" shop eq_refl).
Defined.

Lemma add_item_refusals_witness :
  number_le (to_number (ai_quantity (add_item 101 10 1))) (Finite 0) = false ∧
  cart_add_item (add_item 101 10 1) market =
    ({| reply_status := 400; reply_json := CartError "Cart is not active" |},
     market) ∧
  cart_add_item (add_item 999 10 1) market =
    ({| reply_status := 404; reply_json := CartError "Cart not found" |},
     market).
Proof.
  assert (number_le (to_number (JNum 1)) (Finite 0) = false) as Hq
    by (by vm_compute).
  split; [exact Hq|]. split.
  - destruct (add_item_refusals (add_item 101 10 1) market eq_refl eq_refl
                eq_refl Hq) as (_ & _ & Hinactive).
    apply (Hinactive 101 {| c_user_id := 2; c_status := "ordered" |});
      [reflexivity|by vm_compute|done].
  - destruct (add_item_refusals (add_item 999 10 1) market eq_refl eq_refl
                eq_refl Hq) as (_ & Hmissing & _).
    apply Hmissing. intros k Hk. simpl in Hk. injection Hk as <-.
    by vm_compute.
Defined.



Lemma one_active_cart_is_kept_witness :
  one_active_cart (tables bazaar) ∧ counters_ahead bazaar ∧
  one_active_cart (tables (cart_create (JNum 2) bazaar).2).
Proof.
  split; [exact bazaar_one_active_cart|].
  split; [exact bazaar_counters_ahead|].
  destruct (one_active_cart_is_kept bazaar bazaar_one_active_cart
              bazaar_counters_ahead) as (Hcreate & _).
  exact (Hcreate (JNum 2) _ _ eq_refl (surjective_pairing _)).
Defined.

Lemma checked_out_user_gets_new_cart_witness :
  placed (store_checkout (checkout 1 100) bazaar).1 ∧
  ∃ s2,
    cart_create (JNum 1) (store_checkout (checkout 1 100) bazaar).2 =
      ({| reply_status := 201;
          reply_json := CartId "Cart created successfully" 102 |}, s2).
Proof.
  split; [exact bazaar_placed_100|].
  destruct (checked_out_user_gets_new_cart (checkout 1 100) bazaar _ _
              bazaar_one_active_cart bazaar_counters_ahead
              (surjective_pairing _) bazaar_placed_100) as (s2 & Hc & _).
  exists s2. exact Hc.
Defined.

Lemma market_placed_100 :
  placed (store_checkout (checkout 1 100) market).1.
Proof. by vm_compute. Qed.

Lemma checked_out_cart_takes_no_item_witness :
  placed (store_checkout (checkout 1 100) market).1 ∧
  cart_add_item (add_item 100 10 1)
                (store_checkout (checkout 1 100) market).2 =
    ({| reply_status := 400; reply_json := CartError "Cart is not active" |},
     (store_checkout (checkout 1 100) market).2).
Proof.
  split; [exact market_placed_100|].
  apply (checked_out_cart_takes_no_item (checkout 1 100) market _ _
           (add_item 100 10 1) (surjective_pairing _) market_placed_100);
    [reflexivity..|by vm_compute].
Defined.


Lemma cart_create_is_idempotent_witness :
  counters_ahead bazaar ∧
  (cart_create (JNum 2) bazaar).1 =
    {| reply_status := 201;
       reply_json := CartId "Cart created successfully" 102 |} ∧
  cart_create (JNum 2) (cart_create (JNum 2) bazaar).2 =
    ({| reply_status := 200;
        reply_json := CartId "Active cart already exists" 102 |},
     (cart_create (JNum 2) bazaar).2).
Proof.
  split; [exact bazaar_counters_ahead|].
  assert ((cart_create (JNum 2) bazaar).1 =
            {| reply_status := 201;
               reply_json := CartId "Cart created successfully" 102 |}) as Hr
    by (by vm_compute).
  split; [exact Hr|].
  destruct (cart_create_is_idempotent (JNum 2) bazaar _ _
              "Cart created successfully" 102 eq_refl bazaar_counters_ahead
              (surjective_pairing _)) as [_ Hagain];
    [by rewrite Hr|exact Hagain].
Defined.


Lemma cart_view_shows_the_order_total_witness :
  placed (post_orders (checkout 1 100) shop).1 ∧
  ∃ c crt username items,
    cart_view "100" shop =
      {| reply_status := 200;
         reply_json := CartView c crt username items 2 "34.98" |}.
Proof.
  split; [exact shop_placed_100|].
  pose proof (cart_view_shows_the_order_total (checkout 1 100) shop _ _ "100"
                (surjective_pairing _) shop_placed_100 eq_refl) as Hg.
  destruct Hg as (c & crt & username & items & oj & Hview & Hjson & _).
  exists c, crt, username, items. rewrite Hview. do 2 f_equal.
  assert (oj_total_amount oj = "34.98") as ->; [|done].
  assert (JsonOrderPlaced "Order placed successfully" oj =
          res_json (post_orders (checkout 1 100) shop).1) as Hoj by done.
  vm_compute in Hoj. by injection Hoj as ->.
Defined.

Lemma removed_item_is_gone_witness :
  Exists (λ ci, sql_eq_int (ci_id ci) (JStr "3") = true)
         (cart_items (tables market)) ∧
  ∃ s',
    cart_remove_item "3" market =
      ({| reply_status := 200;
          reply_json := CartMessage "Item removed from cart successfully" |},
       s') ∧
    cart_remove_item "3" s' =
      ({| reply_status := 404; reply_json := CartError "Cart item not found" |},
       s').
Proof.
  assert (Exists (λ ci, sql_eq_int (ci_id ci) (JStr "3") = true)
                 (cart_items (tables market))) as Hex.
  { apply Exists_exists. exists (line 3 101 10 1 999).
    split; [|reflexivity]. do 2 right. by left. }
  split; [exact Hex|].
  destruct (removed_item_is_gone "3" market Hex) as (s' & Hrem & _ & _ & Hagain).
  exists s'. split; [exact Hrem|exact Hagain].
Defined.


Lemma ordered_product_is_not_deleted_witness :
  placed (post_orders (checkout 1 100) shop).1 ∧
  ∃ details,
    product_delete "11" (post_orders (checkout 1 100) shop).2 =
      ({| reply_status := 500;
          reply_json := ProductFailure "Failed to delete product" details |},
       (post_orders (checkout 1 100) shop).2).
Proof.
  split; [exact shop_placed_100|].
  apply (ordered_product_is_not_deleted (checkout 1 100) shop _ _
           {| cl_product_id := 11; cl_quantity := 1;
              cl_price_at_addition := 1500; cl_product_name := "productB";
              cl_stock_quantity := 3; cl_subtotal := 1500 |} "11"
           (surjective_pairing _) shop_placed_100);
    [|reflexivity].
  assert (select_cart_items shop (cart_id (checkout 1 100)) !! 1%nat =
            Some {| cl_product_id := 11; cl_quantity := 1;
                    cl_price_at_addition := 1500;
                    cl_product_name := "productB";
                    cl_stock_quantity := 3; cl_subtotal := 1500 |}) as Hi
    by (by vm_compute).
  by eapply list_elem_of_lookup_2.
Defined.

Lemma deleted_product_leaves_the_carts_witness :
  is_Some (products shop !! 12) ∧
  Forall (λ oi, oi_product_id oi ≠ 12) (order_items shop) ∧
  ∃ db',
    product_delete "12" shop =
      ({| reply_status := 200;
          reply_json := ProductMessage "Product deleted successfully" |}, db') ∧
    length (select_cart_items db' (JNum 102)) = 2%nat.
Proof.
  assert (is_Some (products shop !! 12)) as Hp by (vm_compute; by eexists).
  assert (Forall (λ oi, oi_product_id oi ≠ 12) (order_items shop)) as Hno
    by (by repeat constructor).
  split; [exact Hp|]. split; [exact Hno|].
  assert (mysql_int_of_string "12" = Some 12) as Hid by (by vm_compute).
  destruct (deleted_product_leaves_the_carts "12" 12 shop Hid Hp Hno)
    as (db' & Hdel & _ & _ & Hcarts & _).
  exists db'. split; [exact Hdel|]. rewrite Hcarts. by vm_compute.
Defined.

Lemma foreign_keys_are_kept_witness :
  references_hold (tables market) ∧
  references_hold (tables (store_checkout (checkout 1 100) market).2).
Proof.
  split; [exact shop_references_hold|].
  destruct (foreign_keys_are_kept market shop_references_hold)
    as (_ & _ & _ & _ & Hco & _).
  exact (Hco (checkout 1 100)).
Defined.
